(** * AI colour detector: the classification client and the session controller

    A shallow embedding of [services/geminiService.ts] and of the [App]
    component of [App.tsx], with the properties of the specification stated
    over it.

    JavaScript strings are sequences of UTF-16 code units; React state, refs
    and the browser objects the component touches (media tracks, interval
    timers, pending promises) are fields of one explicit state, and every
    event-loop task (a click, a timer tick, a settled promise) is one step. *)

From Stdlib Require Import NArith List String Ascii Bool Lia.
From stdpp Require Import base option list gmap strings.
Import ListNotations.

#[local] Set Warnings "-clear-no-such-hyp".

Local Open Scope N_scope.

(** ** JavaScript strings *)

Module JS.

(** A string value: its UTF-16 code units, in order. *)
Definition jsstring := list N.

(** The string written by an ASCII literal of the source. *)
Definition lit (s : string) : jsstring :=
  map N_of_ascii (list_ascii_of_string s).

(** Truthiness of a string: every string but the empty one. *)
Definition truthy (s : jsstring) : bool :=
  match s with [] => false | _ :: _ => true end.

(** [a === b] and [a !== b] on strings. *)
Definition strictEq (a b : jsstring) : bool := bool_decide (a = b).
Definition strictNe (a b : jsstring) : bool := negb (strictEq a b).

(** WhiteSpace and LineTerminator code points of ECMAScript, the characters
    [String.prototype.trim] removes: TAB, LF, VT, FF, CR, SP, NBSP, the
    Unicode space separators, LS, PS and the byte-order mark. *)
Definition isWhiteSpace (c : N) : bool :=
  (9 <=? c) && (c <=? 13)
  || (c =? 32) || (c =? 160) || (c =? 5760)
  || (8192 <=? c) && (c <=? 8202)
  || (c =? 8232) || (c =? 8233) || (c =? 8239) || (c =? 8287)
  || (c =? 12288) || (c =? 65279).

Fixpoint trimStart (s : jsstring) : jsstring :=
  match s with
  | [] => []
  | c :: r => if isWhiteSpace c then trimStart r else s
  end.

Definition trimEnd (s : jsstring) : jsstring := rev (trimStart (rev s)).

(** [s.trim()] *)
Definition trim (s : jsstring) : jsstring := trimEnd (trimStart s).

(** What the component needs of the JavaScript runtime beyond the above:
    [String.prototype.toLowerCase], which follows the Unicode case mapping,
    and [encodeURIComponent]. The development is parametric in both, so its
    theorems hold whatever these functions compute. ([encodeURIComponent]
    raises on a lone surrogate; labels are taken to be well-formed.) *)
Class Runtime := {
  toLowerCase : jsstring -> jsstring;
  encodeURIComponent : jsstring -> jsstring
}.

(** The two functions on strings of ASCII code units, where they are
    elementary; code units from 128 on are left as they are by
    [asciiLower] and written as UTF-8 bytes, code unit by code unit, by
    [asciiEncode]. They agree with the runtime's functions on ASCII
    strings only and are used to run concrete sessions whose labels are
    ASCII; no theorem over all runtimes depends on them. *)
Definition asciiLower (s : jsstring) : jsstring :=
  map (fun c => if (65 <=? c) && (c <=? 90) then c + 32 else c) s.

Definition hexDigit (d : N) : N := if d <? 10 then 48 + d else 55 + d.

Definition utf8 (c : N) : list N :=
  if c <? 128 then [c]
  else if c <? 2048 then [192 + c / 64; 128 + c mod 64]
  else [224 + c / 4096; 128 + (c / 64) mod 64; 128 + c mod 64].

(** The characters [encodeURIComponent] keeps: letters, digits and
    [- _ . ! ~ * ' ( )]. *)
Definition uriUnreserved (c : N) : bool :=
  (65 <=? c) && (c <=? 90) || (97 <=? c) && (c <=? 122)
  || (48 <=? c) && (c <=? 57)
  || existsb (N.eqb c) [45; 95; 46; 33; 126; 42; 39; 40; 41].

Definition asciiEncode (s : jsstring) : jsstring :=
  flat_map (fun c =>
    if uriUnreserved c then [c]
    else flat_map (fun b => [37; hexDigit (b / 16); hexDigit (b mod 16)])
                  (utf8 c)) s.

Definition asciiRuntime : Runtime :=
  {| toLowerCase := asciiLower; encodeURIComponent := asciiEncode |}.

End JS.

Import JS.

(** ** services/geminiService.ts *)

Module GeminiService.

(** A JavaScript completion: a value, or a thrown [Error] with its
    message. For an [async] function it is how the promise settles. *)
Inductive Completion (A : Type) : Type :=
| Returns (a : A)
| Throws (message : jsstring).
Arguments Returns {A} a.
Arguments Throws {A} message.

(** Module evaluation. [process.env] is an object read by key. *)
Definition API_KEY (env : gmap string jsstring) : option jsstring :=
  env !! "API_KEY"%string.

(** [!API_KEY]: true for [undefined] and for the empty string. *)
Definition falsy (v : option jsstring) : bool :=
  match v with
  | None => true
  | Some s => negb (truthy s)
  end.

(** The client the module builds once the key is there. *)
Record GoogleGenAI := { apiKey : jsstring }.

(** Evaluating the module: it throws before [ai] and
    [detectColorFromImage] are defined when the key is missing, and
    otherwise builds the client the exported function closes over. *)
Definition load (env : gmap string jsstring) : Completion GoogleGenAI :=
  match API_KEY env with
  | Some k =>
      if falsy (Some k)
      then Throws (lit "API_KEY environment variable not set")
      else Returns {| apiKey := k |}
  | None => Throws (lit "API_KEY environment variable not set")
  end.

(** How [ai.models.generateContent] settles: it rejects, or resolves to a
    response whose [text] is a string or [undefined]. *)
Inductive GenerateContent : Type :=
| Fails
| Responds (text : option jsstring).

(** The character class of the sanitizing regular expression,
    [[.,/#!$%^&*;:{}=\-_`~()]]. *)
Definition strippedClass : list N :=
  [46; 44; 47; 35; 33; 36; 37; 94; 38; 42; 59; 58; 123; 125; 61;
   45; 95; 96; 126; 40; 41].

Definition inClass (c : N) : bool := existsb (N.eqb c) strippedClass.

(** [colorText.replace(/[...]/g, "")] *)
Definition stripClass (s : jsstring) : jsstring :=
  filter (fun c => inClass c = false) s.

(** [detectColorFromImage], given how the remote call settles. Reading
    [.trim()] off an undefined [text] raises inside the [try], so that
    case is rethrown like a failed call. *)
Definition detectColorFromImage (r : GenerateContent) : Completion jsstring :=
  match r with
  | Responds (Some text) =>
      let colorText := trim text in
      Returns (stripClass colorText)
  | Responds None | Fails =>
      Throws (lit "Failed to get response from AI model.")
  end.

End GeminiService.

Import GeminiService.

(** ** App.tsx *)

Module App.

Inductive Status := Ready | Initializing | Detecting | Error | Stopped.
Inductive FacingMode := user | environment.

#[global] Instance Status_eq_dec : EqDecision Status.
Proof. solve_decision. Defined.
#[global] Instance FacingMode_eq_dec : EqDecision FacingMode.
Proof. solve_decision. Defined.

(** *** The component's state *)

(** The eight [useState] cells. *)
Record Hooks := {
  isCameraOn : bool;
  facingMode : FacingMode;
  status : Status;
  detectedColor : jsstring;
  isLoading : bool;
  error : option jsstring;
  audioUrl : jsstring;
  colorUpdateKey : N
}.

(** A media stream is known by its tracks, and a track by a number. *)
Definition MediaStream := list nat.

Record HTMLVideoElement := { srcObject : option MediaStream }.
Inductive HTMLCanvasElement := CanvasElement.
Inductive HTMLAudioElement := AudioElement.

(** The four [useRef] cells; [current] is [null] until the element is
    mounted. Interval handles are positive integers, so a handle is always
    truthy. *)
Record Refs := {
  videoRef : option HTMLVideoElement;
  canvasRef : option HTMLCanvasElement;
  detectionIntervalRef : option positive;
  audioRef : option HTMLAudioElement
}.

(** The function value [captureAndDetect] of one render: a closure over
    that render's [isLoading] and [detectedColor] (its [useCallback]
    dependencies). *)
Record CaptureAndDetect := {
  cap_isLoading : bool;
  cap_detectedColor : jsstring
}.

(** A [startCamera] call suspended at an [await]: the facing mode it asked
    for and the [captureAndDetect] it closes over. *)
Record StartCamera := {
  req_facingMode : FacingMode;
  req_captureAndDetect : CaptureAndDetect
}.

(** A [captureAndDetect] call suspended at [await detectColorFromImage]:
    the image it sent and the [detectedColor] of its closure. *)
Record Detection := {
  det_image : jsstring;
  det_detectedColor : jsstring
}.

(** Calls into the browser and the remote service, in the order made. *)
Inductive Call :=
| TrackStop (track : nat)
| ClearInterval (id : positive)
| GetUserMedia (facing : FacingMode)
| VideoPlay
| SetInterval (id : positive)
| GenerateContentCall (image : jsstring)
| AudioPlay (src : jsstring).

(** The browser side: what the platform offers, which tracks have ended,
    the live interval timers with their callbacks, the promises not yet
    settled, the calls made so far and the statuses the badge has shown. *)
Record Browser := {
  mediaDevices : bool;
  context2d : bool;
  endedTracks : gset nat;
  timers : gmap positive CaptureAndDetect;
  nextTimer : positive;
  pendingStreams : list StartCamera;
  pendingPlays : list StartCamera;
  pendingDetections : list Detection;
  calls : list Call;
  displayed : list Status
}.

(** The dependency values the effects last ran with. *)
Record Deps := {
  dep_audioUrl : jsstring;
  dep_detectedColor : jsstring;
  dep_isCameraOn : bool;
  dep_facingMode : FacingMode
}.

#[global] Instance Deps_eq_dec : EqDecision Deps.
Proof. solve_decision. Defined.

Record State := {
  hooks : Hooks;
  refs : Refs;
  browser : Browser;
  lastDeps : option Deps
}.

(** *** Updates *)

Definition withHooks (f : Hooks -> Hooks) (s : State) : State :=
  {| hooks := f (hooks s); refs := refs s; browser := browser s;
     lastDeps := lastDeps s |}.

Definition withRefs (f : Refs -> Refs) (s : State) : State :=
  {| hooks := hooks s; refs := f (refs s); browser := browser s;
     lastDeps := lastDeps s |}.

Definition withBrowser (f : Browser -> Browser) (s : State) : State :=
  {| hooks := hooks s; refs := refs s; browser := f (browser s);
     lastDeps := lastDeps s |}.

Definition setLastDeps (d : option Deps) (s : State) : State :=
  {| hooks := hooks s; refs := refs s; browser := browser s; lastDeps := d |}.

Definition setIsCameraOn (v : bool) : State -> State :=
  withHooks (fun h => Build_Hooks v (facingMode h) (status h) (detectedColor h)
    (isLoading h) (error h) (audioUrl h) (colorUpdateKey h)).
Definition setFacingMode (v : FacingMode) : State -> State :=
  withHooks (fun h => Build_Hooks (isCameraOn h) v (status h) (detectedColor h)
    (isLoading h) (error h) (audioUrl h) (colorUpdateKey h)).
Definition setStatus (v : Status) : State -> State :=
  withHooks (fun h => Build_Hooks (isCameraOn h) (facingMode h) v (detectedColor h)
    (isLoading h) (error h) (audioUrl h) (colorUpdateKey h)).
Definition setDetectedColor (v : jsstring) : State -> State :=
  withHooks (fun h => Build_Hooks (isCameraOn h) (facingMode h) (status h) v
    (isLoading h) (error h) (audioUrl h) (colorUpdateKey h)).
Definition setIsLoading (v : bool) : State -> State :=
  withHooks (fun h => Build_Hooks (isCameraOn h) (facingMode h) (status h)
    (detectedColor h) v (error h) (audioUrl h) (colorUpdateKey h)).
Definition setError (v : option jsstring) : State -> State :=
  withHooks (fun h => Build_Hooks (isCameraOn h) (facingMode h) (status h)
    (detectedColor h) (isLoading h) v (audioUrl h) (colorUpdateKey h)).
Definition setAudioUrl (v : jsstring) : State -> State :=
  withHooks (fun h => Build_Hooks (isCameraOn h) (facingMode h) (status h)
    (detectedColor h) (isLoading h) (error h) v (colorUpdateKey h)).
Definition setColorUpdateKey (f : N -> N) : State -> State :=
  withHooks (fun h => Build_Hooks (isCameraOn h) (facingMode h) (status h)
    (detectedColor h) (isLoading h) (error h) (audioUrl h) (f (colorUpdateKey h))).

(** [videoRef.current.srcObject = v] *)
Definition setSrcObject (v : option MediaStream) : State -> State :=
  withRefs (fun r =>
    Build_Refs (match videoRef r with
                | Some _ => Some {| srcObject := v |}
                | None => None
                end)
               (canvasRef r) (detectionIntervalRef r) (audioRef r)).

(** [detectionIntervalRef.current = v] *)
Definition setDetectionIntervalRef (v : option positive) : State -> State :=
  withRefs (fun r => Build_Refs (videoRef r) (canvasRef r) v (audioRef r)).

(** React attaching the three elements to their refs on mount. *)
Definition attachRefs : State -> State :=
  withRefs (fun r =>
    Build_Refs (Some {| srcObject := None |}) (Some CanvasElement)
               (detectionIntervalRef r) (Some AudioElement)).

Definition logCall (c : Call) : State -> State :=
  withBrowser (fun b => Build_Browser (mediaDevices b) (context2d b)
    (endedTracks b) (timers b) (nextTimer b) (pendingStreams b)
    (pendingPlays b) (pendingDetections b) (calls b ++ [c]) (displayed b)).

(** [track.stop()] *)
Definition trackStop (t : nat) (s : State) : State :=
  logCall (TrackStop t)
    (withBrowser (fun b => Build_Browser (mediaDevices b) (context2d b)
       ({[ t ]} ∪ endedTracks b) (timers b) (nextTimer b) (pendingStreams b)
       (pendingPlays b) (pendingDetections b) (calls b) (displayed b)) s).

(** [clearInterval(id)] *)
Definition clearInterval (id : positive) (s : State) : State :=
  logCall (ClearInterval id)
    (withBrowser (fun b => Build_Browser (mediaDevices b) (context2d b)
       (endedTracks b) (delete id (timers b)) (nextTimer b) (pendingStreams b)
       (pendingPlays b) (pendingDetections b) (calls b) (displayed b)) s).

(** [window.setInterval(callback, 3000)]: registers the callback under a
    fresh handle and returns the handle. *)
Definition setInterval (callback : CaptureAndDetect) (s : State)
  : positive * State :=
  let id := nextTimer (browser s) in
  (id,
   logCall (SetInterval id)
     (withBrowser (fun b => Build_Browser (mediaDevices b) (context2d b)
        (endedTracks b) (<[ id := callback ]> (timers b)) (Pos.succ id)
        (pendingStreams b) (pendingPlays b) (pendingDetections b) (calls b)
        (displayed b)) s)).

Definition setPendingStreams (l : list StartCamera) : State -> State :=
  withBrowser (fun b => Build_Browser (mediaDevices b) (context2d b)
    (endedTracks b) (timers b) (nextTimer b) l
    (pendingPlays b) (pendingDetections b) (calls b) (displayed b)).

Definition setPendingPlays (l : list StartCamera) : State -> State :=
  withBrowser (fun b => Build_Browser (mediaDevices b) (context2d b)
    (endedTracks b) (timers b) (nextTimer b) (pendingStreams b)
    l (pendingDetections b) (calls b) (displayed b)).

Definition setPendingDetections (l : list Detection) : State -> State :=
  withBrowser (fun b => Build_Browser (mediaDevices b) (context2d b)
    (endedTracks b) (timers b) (nextTimer b) (pendingStreams b)
    (pendingPlays b) l (calls b) (displayed b)).

(** The badge [Status: {status}] of a render, recorded when it differs
    from what was shown last. *)
Definition paint (s : State) : State :=
  if bool_decide (last (displayed (browser s)) = Some (status (hooks s)))
  then s
  else withBrowser (fun b => Build_Browser (mediaDevices b) (context2d b)
    (endedTracks b) (timers b) (nextTimer b) (pendingStreams b)
    (pendingPlays b) (pendingDetections b) (calls b)
    (displayed b ++ [status (hooks s)])) s.

(** *** The component's functions *)

Section Component.

Context {runtime : Runtime}.

(** [speak] *)
Definition speak (text : jsstring) (s : State) : State :=
  if negb (truthy text) then s
  else
    let url :=
      lit "https://translate.google.com/translate_tts?ie=UTF-8&tl=en&client=tw-ob&q="
        ++ encodeURIComponent text in
    setAudioUrl url s.

(** [stream.getTracks().forEach(track => track.stop())] *)
Definition stopTracks (stream : MediaStream) (s : State) : State :=
  fold_left (fun s t => trackStop t s) stream s.

(** [stopCameraStream] *)
Definition stopCameraStream (s : State) : State :=
  let s1 :=
    match videoRef (refs s) with
    | Some video =>
        match srcObject video with
        | Some stream => setSrcObject None (stopTracks stream s)
        | None => s
        end
    | None => s
    end in
  match detectionIntervalRef (refs s1) with
  | Some id => setDetectionIntervalRef None (clearInterval id s1)
  | None => s1
  end.

(** [captureAndDetect] up to its [await]. [c] is the function value that
    is called, so [isLoading] is read from its closure; [image] is the
    JPEG payload the canvas yields for the frame on screen. *)
Definition captureAndDetect (c : CaptureAndDetect) (image : jsstring)
    (s : State) : State :=
  if cap_isLoading c
     || negb (bool_decide (is_Some (videoRef (refs s))))
     || negb (bool_decide (is_Some (canvasRef (refs s))))
  then s
  else
    let s := setIsLoading true s in
    let s := setStatus Detecting s in
    if context2d (browser s) then
      let s := logCall (GenerateContentCall image) s in
      setPendingDetections
        (pendingDetections (browser s)
           ++ [{| det_image := image;
                  det_detectedColor := cap_detectedColor c |}]) s
    else setIsLoading false s.

(** [captureAndDetect] from its [await] on: the [try] body after the call
    resolved with [color], then [finally]. *)
Definition captureAndDetect_resolved (d : Detection) (color : jsstring)
    (s : State) : State :=
  let s :=
    if truthy color
       && strictNe (toLowerCase color) (toLowerCase (det_detectedColor d))
    then setDetectedColor color s
    else s in
  let s := setError None s in
  setIsLoading false s.

(** [captureAndDetect] from its [await] on: [catch], then [finally]. *)
Definition captureAndDetect_rejected (s : State) : State :=
  let s := setError (Some (lit "Could not detect color. Please try again.")) s in
  let s := setStatus Error s in
  setIsLoading false s.

(** The [catch] block of [startCamera]. *)
Definition startCamera_rejected (s : State) : State :=
  let s := setError (Some (lit
    "Camera access denied. Please allow camera permissions in your browser settings.")) s in
  let s := setStatus Error s in
  setIsCameraOn false s.

(** [startCamera] up to [await getUserMedia], for the function value of a
    render with facing mode [fm] and callback [c]. *)
Definition startCamera (fm : FacingMode) (c : CaptureAndDetect) (s : State)
  : State :=
  let s := stopCameraStream s in
  let s := setStatus Initializing s in
  let s := setError None s in
  if mediaDevices (browser s) then
    let s := logCall (GetUserMedia fm) s in
    setPendingStreams
      (pendingStreams (browser s)
         ++ [{| req_facingMode := fm; req_captureAndDetect := c |}]) s
  else
    let s := setError (Some (lit "Camera not supported by this browser.")) s in
    let s := setStatus Error s in
    setIsCameraOn false s.

(** [startCamera] between the two [await]s, once [getUserMedia] resolved
    with [stream]. *)
Definition startCamera_granted (r : StartCamera) (stream : MediaStream)
    (s : State) : State :=
  match videoRef (refs s) with
  | Some _ =>
      let s := setSrcObject (Some stream) s in
      let s := logCall VideoPlay s in
      setPendingPlays (pendingPlays (browser s) ++ [r]) s
  | None => s
  end.

(** [startCamera] after [await videoRef.current.play()]. *)
Definition startCamera_played (r : StartCamera) (s : State) : State :=
  let s := setStatus Detecting s in
  let '(id, s) := setInterval (req_captureAndDetect r) s in
  setDetectionIntervalRef (Some id) s.

(** [handleToggleCamera] *)
Definition handleToggleCamera (s : State) : State :=
  let s := setIsCameraOn (negb (isCameraOn (hooks s))) s in
  setDetectedColor [] s.

Definition opposite (fm : FacingMode) : FacingMode :=
  match fm with user => environment | environment => user end.

(** [handleSwitchCamera] *)
Definition handleSwitchCamera (s : State) : State :=
  if isCameraOn (hooks s)
  then setFacingMode (opposite (facingMode (hooks s))) s
  else s.

(** *** Effects *)

(** The three [useEffect] bodies, each for the render whose state cells
    are [render]. *)
Definition audioEffect (render : Hooks) (s : State) : State :=
  if truthy (audioUrl render) && bool_decide (is_Some (audioRef (refs s)))
  then logCall (AudioPlay (audioUrl render)) s
  else s.

Definition colorEffect (render : Hooks) (s : State) : State :=
  if truthy (detectedColor render) then
    let s := speak (detectedColor render) s in
    setColorUpdateKey (fun prevKey => prevKey + 1) s
  else s.

Definition captureAndDetectOf (render : Hooks) : CaptureAndDetect :=
  {| cap_isLoading := isLoading render;
     cap_detectedColor := detectedColor render |}.

Definition cameraEffect (render : Hooks) (s : State) : State :=
  if isCameraOn render
  then startCamera (facingMode render) (captureAndDetectOf render) s
  else
    let s := stopCameraStream s in
    setStatus Stopped s.

Definition depsOf (render : Hooks) : Deps :=
  {| dep_audioUrl := audioUrl render;
     dep_detectedColor := detectedColor render;
     dep_isCameraOn := isCameraOn render;
     dep_facingMode := facingMode render |}.

(** Whether an effect is due: on mount, or when one of its dependencies
    differs from the value it last ran with. *)
Definition due {A} `{EqDecision A} (prev : option Deps) (dep : Deps -> A)
    (now : Deps) : bool :=
  match prev with
  | None => true
  | Some d => negb (bool_decide (dep d = dep now))
  end.

(** The effects of one committed render: the clean-up of the camera
    effect if that effect runs again, then the bodies that are due, in the
    order of their declaration. *)
Definition runEffects (s : State) : State :=
  let render := hooks s in
  let prev := lastDeps s in
  let now := depsOf render in
  let cameraDue :=
    due prev dep_isCameraOn now || due prev dep_facingMode now in
  let s :=
    if cameraDue && bool_decide (is_Some prev) then stopCameraStream s else s in
  let s := if due prev dep_audioUrl now then audioEffect render s else s in
  let s := if due prev dep_detectedColor now then colorEffect render s else s in
  let s := if cameraDue then cameraEffect render s else s in
  setLastDeps (Some now) s.

(** No effect is due. *)
Definition settled (s : State) : Prop := lastDeps s = Some (depsOf (hooks s)).

(** Render, run the effects that are due, and render again while they
    changed state that some effect depends on. *)
Fixpoint flush (fuel : nat) (s : State) : State :=
  let s := paint s in
  if bool_decide (settled s) then s
  else
    match fuel with
    | O => s
    | S n => flush n (runEffects s)
    end.

(** Two rounds of effects always suffice (see [commit_settled]). *)
Definition commit (s : State) : State := flush 2 s.

(** *** Tasks *)

Inductive Event :=
| Mount
| ClickToggle
| ClickSwitch
| StreamGranted (i : nat) (stream : MediaStream)
| StreamDenied (i : nat)
| PlayStarted (i : nat)
| PlayFailed (i : nat)
| TimerFired (id : positive) (image : jsstring)
| ServiceSettled (i : nat) (r : GenerateContent).

(** The handler or continuation an event runs, before React renders. An
    event that names no pending promise or live timer does nothing. *)
Definition handle (e : Event) (s : State) : State :=
  match e with
  | Mount => s
  | ClickToggle => handleToggleCamera s
  | ClickSwitch => handleSwitchCamera s
  | StreamGranted i stream =>
      match pendingStreams (browser s) !! i with
      | Some r =>
          startCamera_granted r stream
            (setPendingStreams (delete i (pendingStreams (browser s))) s)
      | None => s
      end
  | StreamDenied i =>
      match pendingStreams (browser s) !! i with
      | Some r =>
          startCamera_rejected
            (setPendingStreams (delete i (pendingStreams (browser s))) s)
      | None => s
      end
  | PlayStarted i =>
      match pendingPlays (browser s) !! i with
      | Some r =>
          startCamera_played r
            (setPendingPlays (delete i (pendingPlays (browser s))) s)
      | None => s
      end
  | PlayFailed i =>
      match pendingPlays (browser s) !! i with
      | Some r =>
          startCamera_rejected
            (setPendingPlays (delete i (pendingPlays (browser s))) s)
      | None => s
      end
  | TimerFired id image =>
      match timers (browser s) !! id with
      | Some c => captureAndDetect c image s
      | None => s
      end
  | ServiceSettled i r =>
      match pendingDetections (browser s) !! i with
      | Some d =>
          let s :=
            setPendingDetections (delete i (pendingDetections (browser s))) s in
          match detectColorFromImage r with
          | Returns color => captureAndDetect_resolved d color s
          | Throws _ => captureAndDetect_rejected s
          end
      | None => s
      end
  end.

(** One task of the event loop: the handler, then React's commit. Mounting
    happens once; before it there is nothing to click or to fire. *)
Definition step (e : Event) (s : State) : State :=
  match e, lastDeps s with
  | Mount, None => commit (attachRefs s)
  | Mount, Some _ => s
  | _, None => s
  | _, Some _ => commit (handle e s)
  end.

Definition run (es : list Event) (s : State) : State :=
  fold_left (fun s e => step e s) es s.

End Component.

(** What the platform offers. *)
Record Platform := {
  supportsGetUserMedia : bool;
  supportsContext2d : bool
}.

(** The component before its first render. *)
Definition init (p : Platform) : State :=
  {| hooks := {| isCameraOn := false; facingMode := environment;
                 status := Ready; detectedColor := []; isLoading := false;
                 error := None; audioUrl := []; colorUpdateKey := 0 |};
     refs := {| videoRef := None; canvasRef := None;
                detectionIntervalRef := None; audioRef := None |};
     browser := {| mediaDevices := supportsGetUserMedia p;
                   context2d := supportsContext2d p;
                   endedTracks := ∅; timers := ∅; nextTimer := 1%positive;
                   pendingStreams := []; pendingPlays := [];
                   pendingDetections := []; calls := []; displayed := [] |};
     lastDeps := None |}.

(** Loading the application: [App.tsx] imports the classification client,
    so the client module is evaluated first and an exception it throws
    leaves the component undefined. *)
Definition start (env : gmap string jsstring) (p : Platform)
  : Completion State :=
  match load env with
  | Returns _ => Returns (init p)
  | Throws message => Throws message
  end.

(** The states the component can be in. *)
Inductive reachable {runtime : Runtime} : State -> Prop :=
| reachable_init p : reachable (init p)
| reachable_step e s : reachable s -> reachable (step e s).

End App.

Import App.

(** ** The rendered tree of App.tsx *)

Module View.

(** What stands under the video while the camera is on: the spinner, or
    the detected colour with its animation key, its CSS colour and its
    text. *)
Inductive Panel :=
| Analyzing
| DetectedColor (key : N) (color text : jsstring).

(** The parts of the returned JSX that depend on state. *)
Record View := {
  overlayShown : bool;
  badgeClass : jsstring;
  badgeText : jsstring;
  errorShown : option jsstring;
  panel : option Panel;
  toggleClass : jsstring;
  toggleText : jsstring;
  switchDisabled : bool;
  switchText : jsstring;
  audioSrc : jsstring
}.

Definition statusName (st : Status) : jsstring :=
  match st with
  | Ready => lit "Ready"
  | Initializing => lit "Initializing"
  | Detecting => lit "Detecting"
  | Error => lit "Error"
  | Stopped => lit "Stopped"
  end.

(** [a || b] on strings. *)
Definition orElse (a b : jsstring) : jsstring := if truthy a then a else b.

(** The tree a render returns for the state cells [h]. *)
Definition view {runtime : Runtime} (h : Hooks) : View :=
  {| overlayShown := negb (isCameraOn h);
     badgeClass :=
       if bool_decide (status h = Detecting)
       then lit "bg-green-500/20 text-green-300"
       else if bool_decide (status h = Ready) || bool_decide (status h = Stopped)
       then lit "bg-blue-500/20 text-blue-300"
       else if bool_decide (status h = Initializing)
       then lit "bg-yellow-500/20 text-yellow-300"
       else lit "bg-red-500/20 text-red-300";
     badgeText := lit "Status: " ++ statusName (status h);
     errorShown :=
       match error h with
       | Some message => if truthy message then Some message else None
       | None => None
       end;
     panel :=
       if isCameraOn h then
         Some (if isLoading h && bool_decide (status h = Detecting)
               then Analyzing
               else DetectedColor (colorUpdateKey h)
                      (orElse (toLowerCase (detectedColor h)) (lit "white"))
                      (orElse (detectedColor h) (lit "...")))
       else None;
     toggleClass :=
       if isCameraOn h
       then lit "bg-red-600 hover:bg-red-700 focus:ring-red-500/50"
       else lit "bg-green-600 hover:bg-green-700 focus:ring-green-500/50";
     toggleText :=
       (if isCameraOn h then lit "Turn Off" else lit "Turn On") ++ lit " Camera";
     switchDisabled := negb (isCameraOn h);
     switchText :=
       lit "Switch to "
         ++ (if bool_decide (facingMode h = user) then lit "Back" else lit "Front");
     audioSrc := audioUrl h |}.

End View.

Import View.

(** ** Vocabulary of the specification *)

(** The handle in [detectionIntervalRef], if any, is that of a live
    timer. *)
Definition heldTimerLive (s : State) : Prop :=
  forall id, detectionIntervalRef (refs s) = Some id ->
             is_Some (timers (browser s) !! id).

(** The three messages the component can show. *)
Definition fixedMessages : list jsstring :=
  [lit "Camera access denied. Please allow camera permissions in your browser settings.";
   lit "Camera not supported by this browser.";
   lit "Could not detect color. Please try again."].

(** [error] is [null] or one of the three messages. *)
Definition knownError (e : option jsstring) : Prop :=
  match e with
  | None => True
  | Some message => message ∈ fixedMessages
  end.


(** ASCII punctuation: the printable ASCII characters that are neither
    letters, digits nor the space. *)
Definition isPunctuation (c : N) : bool :=
  (33 <=? c) && (c <=? 47) || (58 <=? c) && (c <=? 64)
  || (91 <=? c) && (c <=? 96) || (123 <=? c) && (c <=? 126).

(** A single word: not empty, without white space. *)
Definition singleWord (s : jsstring) : bool :=
  truthy s && forallb (fun c => negb (isWhiteSpace c)) s.

(** The calls [stopCameraStream] makes in a state: a stop for each track of
    the stream on the video element, then the cancellation of the timer
    held in [detectionIntervalRef]. *)
Definition releaseCalls (s : State) : list Call :=
  match videoRef (refs s) with
  | Some {| srcObject := Some stream |} => map TrackStop stream
  | _ => []
  end
  ++ match detectionIntervalRef (refs s) with
     | Some id => [ClearInterval id]
     | None => []
     end.

(** The camera is released in [s'] with respect to [s]: every track of the
    stream that was on the video element has ended and the timer that was
    held in [detectionIntervalRef] is no longer live. This is what
    [stopCameraStream] can reach, through the two refs of [s]; a stream or
    a timer that no ref of [s] holds is not spoken of. *)
Definition released (s s' : State) : Prop :=
  (forall video stream t,
      videoRef (refs s) = Some video -> srcObject video = Some stream ->
      t ∈ stream -> t ∈ endedTracks (browser s'))
  /\ (forall id,
        detectionIntervalRef (refs s) = Some id ->
        timers (browser s') !! id = None).

(** Which elements are on their refs. *)
Definition elements (s : State)
  : bool * option HTMLCanvasElement * option HTMLAudioElement :=
  (bool_decide (is_Some (videoRef (refs s))), canvasRef (refs s),
   audioRef (refs s)).

(** A mounted component between two tasks: no effect is due and the three
    elements are on their refs. *)
Record mounted {runtime : Runtime} (s : State) : Prop := {
  mounted_settled : settled s;
  mounted_elements : elements s = (true, Some CanvasElement, Some AudioElement)
}.

(** A browser with a camera API and a 2d canvas. *)
Definition desktop : Platform :=
  {| supportsGetUserMedia := true; supportsContext2d := true |}.

(** Mounting, switching the camera on, the stream being granted and
    playback starting. *)
Definition activation : list Event :=
  [Mount; ClickToggle; StreamGranted 0%nat [0%nat; 1%nat]; PlayStarted 0%nat].

(** An activation followed by the first tick of the timer, which sends the
    image [frame-1]. *)
Definition firstTick : list Event :=
  activation ++ [TimerFired 1 (lit "frame-1")].

(** The call made at the first tick, as it waits for the service. *)
Definition firstDetection : Detection :=
  {| det_image := lit "frame-1"; det_detectedColor := [] |}.

(** A session in which "Blue" was detected and the facing mode was then
    switched, so that the new interval's callback closes over "Blue", and
    in which that interval has sent its first image. *)
Definition blueThenSwitch : list Event :=
  firstTick
  ++ [ServiceSettled 0 (Responds (Some (lit "Blue")));
      ClickSwitch; StreamGranted 0 [2%nat; 3%nat]; PlayStarted 0;
      TimerFired 2 (lit "frame-2")].

(** An activation whose stream is [stream]. *)
Definition activationWith (stream : MediaStream) : list Event :=
  [Mount; ClickToggle; StreamGranted 0%nat stream; PlayStarted 0%nat].

(** What rendering and the effects leave alone in going from [s] to [s']:
    what the platform offers, the promises of detection and playback, the
    loading flag, the detected colour and the facing mode. *)
Record untouched (s s' : State) : Prop := {
  untouched_mediaDevices :
    mediaDevices (browser s') = mediaDevices (browser s);
  untouched_context2d : context2d (browser s') = context2d (browser s);
  untouched_pendingDetections :
    pendingDetections (browser s') = pendingDetections (browser s);
  untouched_pendingPlays : pendingPlays (browser s') = pendingPlays (browser s);
  untouched_isLoading : isLoading (hooks s') = isLoading (hooks s);
  untouched_detectedColor : detectedColor (hooks s') = detectedColor (hooks s);
  untouched_facingMode : facingMode (hooks s') = facingMode (hooks s)
}.

(** The address [speak] builds for a label. *)
Definition speechUrl {runtime : Runtime} (text : jsstring) : jsstring :=
  lit "https://translate.google.com/translate_tts?ie=UTF-8&tl=en&client=tw-ob&q="
    ++ encodeURIComponent text.

(** A browser without a camera API. *)
Definition kiosk : Platform :=
  {| supportsGetUserMedia := false; supportsContext2d := true |}.

(** The request and the callback of a first activation. *)
Definition firstCallback : CaptureAndDetect :=
  {| cap_isLoading := false; cap_detectedColor := [] |}.

Definition firstRequest : StartCamera :=
  {| req_facingMode := environment; req_captureAndDetect := firstCallback |}.

(** A session in which the camera is switched off while [getUserMedia] is
    still pending. *)
Definition offWhilePending : list Event := [Mount; ClickToggle; ClickToggle].

(** The same once the stream has been granted all the same. *)
Definition lateGrant : list Event :=
  offWhilePending ++ [StreamGranted 0 [0%nat; 1%nat]].

(** A session in which the facing mode is switched while the first call
    is in flight, and the new stream is granted and plays. *)
Definition switchInFlight : list Event :=
  firstTick ++ [ClickSwitch; StreamGranted 0 [2%nat; 3%nat]; PlayStarted 0].

(** The same once the first call has resolved with "Blue". *)
Definition switchInFlightSettled : list Event :=
  switchInFlight ++ [ServiceSettled 0 (Responds (Some (lit "Blue")))].

(** A session in which "Blue" is on display and the timer of the
    activation then fires again, sending the image [frame-2]. *)
Definition blueOnDisplay : list Event :=
  firstTick
  ++ [ServiceSettled 0 (Responds (Some (lit "Blue")));
      TimerFired 1 (lit "frame-2")].

(** A session in which the facing mode is switched while the first
    camera request is still pending; both requests are then granted, one
    after the other, each followed by its playback. *)
Definition overlappingActivations : list Event :=
  [Mount; ClickToggle; ClickSwitch;
   StreamGranted 0%nat [0%nat; 1%nat]; PlayStarted 0%nat;
   StreamGranted 0%nat [2%nat; 3%nat]; PlayStarted 0%nat].

(** The callback of an interval started while a call was in flight. *)
Definition loadingCallback : CaptureAndDetect :=
  {| cap_isLoading := true; cap_detectedColor := [] |}.

(** ** Frame lemmas *)

Section Frames.

Context {runtime : Runtime}.

Lemma stopTracks_hooks stream s : hooks (stopTracks stream s) = hooks s.
Proof.
  unfold stopTracks. revert s.
  induction stream as [|t stream IH]; intros s; [reflexivity|].
  cbn [fold_left]. now rewrite IH.
Qed.

Lemma stopTracks_refs stream s : refs (stopTracks stream s) = refs s.
Proof.
  unfold stopTracks. revert s.
  induction stream as [|t stream IH]; intros s; [reflexivity|].
  cbn [fold_left]. now rewrite IH.
Qed.

Lemma stopTracks_lastDeps stream s :
  lastDeps (stopTracks stream s) = lastDeps s.
Proof.
  unfold stopTracks. revert s.
  induction stream as [|t stream IH]; intros s; [reflexivity|].
  cbn [fold_left]. now rewrite IH.
Qed.

(** What stopping the tracks of a stream does to the browser. *)
Lemma stopTracks_browser stream s :
  let b := browser s in
  browser (stopTracks stream s)
  = Build_Browser (mediaDevices b) (context2d b)
      (list_to_set stream ∪ endedTracks b) (timers b) (nextTimer b)
      (pendingStreams b) (pendingPlays b) (pendingDetections b)
      (calls b ++ map TrackStop stream) (displayed b).
Proof.
  unfold stopTracks. revert s.
  induction stream as [|t stream IH]; intros s.
  - cbn. destruct (browser s). cbn. f_equal.
    + apply leibniz_equiv. set_solver.
    + now rewrite app_nil_r.
  - cbn [fold_left]. rewrite IH. cbn. f_equal.
    + apply leibniz_equiv. set_solver.
    + now rewrite <- app_assoc.
Qed.

(** [stopCameraStream] touches neither the state cells nor the effect
    bookkeeping. *)
Lemma stopCameraStream_hooks s : hooks (stopCameraStream s) = hooks s.
Proof.
  unfold stopCameraStream.
  destruct (videoRef (refs s)) as [[[stream|]]|];
    repeat match goal with
           | |- context [match ?x with Some _ => _ | None => _ end] =>
               destruct x
           end; cbn; rewrite ?stopTracks_hooks; reflexivity.
Qed.

Lemma stopCameraStream_lastDeps s :
  lastDeps (stopCameraStream s) = lastDeps s.
Proof.
  unfold stopCameraStream.
  destruct (videoRef (refs s)) as [[[stream|]]|];
    repeat match goal with
           | |- context [match ?x with Some _ => _ | None => _ end] =>
               destruct x
           end; cbn; rewrite ?stopTracks_lastDeps; reflexivity.
Qed.

(** After [stopCameraStream] the video element carries no stream, the
    other elements are where they were and no handle is held. *)
Lemma stopCameraStream_refs s :
  refs (stopCameraStream s)
  = Build_Refs (match videoRef (refs s) with
                | Some _ => Some {| srcObject := None |}
                | None => None
                end)
               (canvasRef (refs s)) None (audioRef (refs s)).
Proof.
  unfold stopCameraStream.
  destruct (refs s) as [v c i a] eqn:Hr.
  destruct v as [[[stream|]]|]; cbn;
    rewrite ?stopTracks_refs, ?Hr; cbn; destruct i; cbn;
    rewrite ?stopTracks_refs, ?Hr; reflexivity.
Qed.

(** The browser after [stopCameraStream]: the tracks of the attached
    stream have ended, the held timer is gone, and the calls made are
    exactly [releaseCalls]. *)
Lemma stopCameraStream_browser s :
  let b := browser s in
  browser (stopCameraStream s)
  = Build_Browser (mediaDevices b) (context2d b)
      (match videoRef (refs s) with
       | Some {| srcObject := Some stream |} => list_to_set stream ∪ endedTracks b
       | _ => endedTracks b
       end)
      (match detectionIntervalRef (refs s) with
       | Some id => delete id (timers b)
       | None => timers b
       end)
      (nextTimer b) (pendingStreams b) (pendingPlays b) (pendingDetections b)
      (calls b ++ releaseCalls s) (displayed b).
Proof.
  unfold stopCameraStream, releaseCalls.
  destruct (refs s) as [v c i a] eqn:Hr.
  destruct v as [[[stream|]]|]; cbn;
    rewrite ?stopTracks_refs, ?Hr; cbn; destruct i; cbn;
    rewrite ?stopTracks_browser, ?app_nil_r; cbn;
    rewrite ?app_nil_r, <- ?app_assoc;
    try reflexivity; destruct (browser s); reflexivity.
Qed.

(** A state with no stream on the video element and no held handle is a
    fixed point of [stopCameraStream]. *)
Lemma stopCameraStream_idle s :
  (forall video, videoRef (refs s) = Some video -> srcObject video = None) ->
  detectionIntervalRef (refs s) = None ->
  stopCameraStream s = s.
Proof.
  intros Hv Hi. unfold stopCameraStream.
  destruct (videoRef (refs s)) as [video|] eqn:Hvideo.
  - rewrite (Hv video eq_refl). now rewrite Hi.
  - now rewrite Hi.
Qed.

Lemma stopCameraStream_twice s :
  stopCameraStream (stopCameraStream s) = stopCameraStream s.
Proof.
  apply stopCameraStream_idle; rewrite stopCameraStream_refs; cbn.
  - intros video Hvideo. destruct (videoRef (refs s)); [|discriminate].
    now inversion Hvideo.
  - reflexivity.
Qed.

Lemma releaseCalls_stopCameraStream s : releaseCalls (stopCameraStream s) = [].
Proof.
  unfold releaseCalls. rewrite stopCameraStream_refs. cbn.
  now destruct (videoRef (refs s)).
Qed.

(** *** The state cells under the effects *)

Lemma audioEffect_hooks render s : hooks (audioEffect render s) = hooks s.
Proof. unfold audioEffect. now destruct (_ && _). Qed.

Lemma colorEffect_hooks render s :
  let h := hooks s in
  hooks (colorEffect render s)
  = if truthy (detectedColor render)
    then Build_Hooks (isCameraOn h) (facingMode h) (status h) (detectedColor h)
           (isLoading h) (error h)
           (lit "https://translate.google.com/translate_tts?ie=UTF-8&tl=en&client=tw-ob&q="
              ++ encodeURIComponent (detectedColor render))
           (colorUpdateKey h + 1)
    else h.
Proof.
  unfold colorEffect, speak. destruct (truthy (detectedColor render)); reflexivity.
Qed.

Lemma startCamera_hooks fm c s :
  let h := hooks s in
  hooks (startCamera fm c s)
  = if mediaDevices (browser s)
    then Build_Hooks (isCameraOn h) (facingMode h) Initializing (detectedColor h)
           (isLoading h) None (audioUrl h) (colorUpdateKey h)
    else Build_Hooks false (facingMode h) Error (detectedColor h)
           (isLoading h) (Some (lit "Camera not supported by this browser."))
           (audioUrl h) (colorUpdateKey h).
Proof.
  unfold startCamera. cbn. rewrite stopCameraStream_browser. cbn.
  destruct (mediaDevices (browser s)); cbn;
    rewrite stopCameraStream_hooks; reflexivity.
Qed.

Lemma cameraEffect_hooks render s :
  let h := hooks s in
  hooks (cameraEffect render s)
  = if isCameraOn render
    then hooks (startCamera (facingMode render) (captureAndDetectOf render) s)
    else Build_Hooks (isCameraOn h) (facingMode h) Stopped (detectedColor h)
           (isLoading h) (error h) (audioUrl h) (colorUpdateKey h).
Proof.
  unfold cameraEffect. destruct (isCameraOn render); [reflexivity|].
  cbn. now rewrite stopCameraStream_hooks.
Qed.

Lemma paint_hooks s : hooks (paint s) = hooks s.
Proof. unfold paint. now case_bool_decide. Qed.

Lemma paint_refs s : refs (paint s) = refs s.
Proof. unfold paint. now case_bool_decide. Qed.

Lemma paint_lastDeps s : lastDeps (paint s) = lastDeps s.
Proof. unfold paint. now case_bool_decide. Qed.

Lemma paint_settled s : settled (paint s) <-> settled s.
Proof. unfold settled. now rewrite paint_hooks, paint_lastDeps. Qed.

Lemma runEffects_lastDeps s :
  lastDeps (runEffects s) = Some (depsOf (hooks s)).
Proof. reflexivity. Qed.

(** One round of effects leaves [detectedColor] and [facingMode] alone,
    can only switch [isCameraOn] off, and changes [audioUrl] only when the
    colour effect was due. *)
Lemma runEffects_hooks s :
  let h := hooks s in
  let h' := hooks (runEffects s) in
  detectedColor h' = detectedColor h
  /\ facingMode h' = facingMode h
  /\ (isCameraOn h' = isCameraOn h \/ isCameraOn h' = false)
  /\ (due (lastDeps s) dep_detectedColor (depsOf h) = false ->
      audioUrl h' = audioUrl h).
Proof.
  unfold runEffects. cbn zeta. cbn [hooks setLastDeps].
  set (cameraDue := due _ dep_isCameraOn _ || due _ dep_facingMode _).
  set (colorDue := due _ dep_detectedColor _).
  set (audioDue := due _ dep_audioUrl _).
  destruct cameraDue, colorDue, audioDue, (bool_decide (is_Some (lastDeps s)));
    cbn [andb];
    rewrite ?cameraEffect_hooks, ?startCamera_hooks, ?colorEffect_hooks,
      ?audioEffect_hooks, ?stopCameraStream_hooks;
    repeat match goal with
           | |- context [if ?b then _ else _] => destruct b eqn:?
           end; cbn; repeat split; auto; try discriminate.
Qed.

(** Once a round has run, a further round finds the colour effect not due
    and the camera effect due only to switch off: it changes no
    dependency. *)
Lemma runEffects_stable s d :
  lastDeps s = Some d ->
  dep_detectedColor d = detectedColor (hooks s) ->
  dep_facingMode d = facingMode (hooks s) ->
  dep_isCameraOn d = isCameraOn (hooks s) \/ isCameraOn (hooks s) = false ->
  depsOf (hooks (runEffects s)) = depsOf (hooks s).
Proof.
  intros Hd Hc Hf Ho. unfold runEffects. cbn zeta. cbn [hooks setLastDeps].
  rewrite Hd. unfold due. cbn [dep_detectedColor dep_facingMode dep_isCameraOn
    dep_audioUrl depsOf].
  rewrite (bool_decide_eq_true_2 _ Hc), (bool_decide_eq_true_2 _ Hf).
  cbn [negb orb].
  destruct (bool_decide (dep_isCameraOn d = isCameraOn (hooks s))) eqn:Hon;
    cbn [negb orb andb].
  - destruct (negb _); rewrite ?audioEffect_hooks; reflexivity.
  - assert (Hoff : isCameraOn (hooks s) = false).
    { destruct Ho as [Ho|Ho]; [|exact Ho].
      apply bool_decide_eq_false in Hon. contradiction. }
    rewrite cameraEffect_hooks, Hoff. cbn.
    repeat match goal with
           | |- context [if ?b then _ else _] => destruct b
           end;
      rewrite ?audioEffect_hooks, ?stopCameraStream_hooks;
      unfold depsOf; cbn; rewrite ?Hoff; reflexivity.
Qed.

Lemma flush_eq fuel s :
  flush fuel s
  = if bool_decide (settled (paint s)) then paint s
    else match fuel with
         | O => paint s
         | S n => flush n (runEffects (paint s))
         end.
Proof. destruct fuel; reflexivity. Qed.

(** [commit] leaves no effect due: the two rounds it allows are enough. *)
Theorem commit_settled s : settled (commit s).
Proof.
  unfold commit. rewrite flush_eq. case_bool_decide as H1; [exact H1|].
  set (s1 := runEffects (paint s)).
  rewrite flush_eq. case_bool_decide as H2; [exact H2|].
  set (s2 := runEffects (paint s1)).
  rewrite flush_eq.
  assert (H3 : settled (paint s2)).
  { apply paint_settled. unfold settled, s2. rewrite runEffects_lastDeps.
    f_equal. symmetry.
    destruct (runEffects_hooks (paint s)) as (Hc & Hf & Ho & _).
    fold s1 in Hc, Hf, Ho.
    apply (runEffects_stable _ (depsOf (hooks (paint s)))).
    - rewrite paint_lastDeps. reflexivity.
    - rewrite (paint_hooks s1). symmetry. exact Hc.
    - rewrite (paint_hooks s1). symmetry. exact Hf.
    - rewrite (paint_hooks s1).
      destruct Ho as [Ho|Ho]; [left; symmetry|right]; exact Ho. }
  rewrite (bool_decide_eq_true_2 _ H3). exact H3.
Qed.

(** *** The elements stay on their refs *)

Ltac split_cases :=
  repeat match goal with
         | |- context [if ?b then _ else _] => destruct b eqn:?
         | |- context [match ?x with Some _ => _ | None => _ end] =>
             destruct x eqn:?
         | |- context [match ?x with Returns _ => _ | Throws _ => _ end] =>
             destruct x eqn:?
         end.

Lemma stopCameraStream_elements s : elements (stopCameraStream s) = elements s.
Proof.
  unfold elements. rewrite stopCameraStream_refs. cbn.
  now destruct (videoRef (refs s)).
Qed.

Lemma startCamera_elements fm c s : elements (startCamera fm c s) = elements s.
Proof.
  unfold startCamera. cbn. split_cases; apply stopCameraStream_elements.
Qed.

Lemma setSrcObject_elements v s : elements (setSrcObject v s) = elements s.
Proof. unfold elements. cbn. now destruct (videoRef (refs s)). Qed.

Lemma handle_elements e s : elements (handle e s) = elements s.
Proof.
  destruct e; cbn;
    unfold handleToggleCamera, handleSwitchCamera, startCamera_granted,
      startCamera_rejected, startCamera_played, captureAndDetect,
      captureAndDetect_resolved, captureAndDetect_rejected;
    cbn; split_cases; try reflexivity.
  unfold elements. cbn. now destruct (videoRef (refs s)).
Qed.

Lemma audioEffect_elements render s :
  elements (audioEffect render s) = elements s.
Proof. unfold audioEffect. now destruct (_ && _). Qed.

Lemma colorEffect_elements render s :
  elements (colorEffect render s) = elements s.
Proof.
  unfold colorEffect, speak.
  destruct (truthy (detectedColor render)); reflexivity.
Qed.

Lemma cameraEffect_elements render s :
  elements (cameraEffect render s) = elements s.
Proof.
  unfold cameraEffect. destruct (isCameraOn render).
  - apply startCamera_elements.
  - apply stopCameraStream_elements.
Qed.

Lemma runEffects_elements s : elements (runEffects s) = elements s.
Proof.
  unfold runEffects. cbn zeta.
  set (cameraDue := due _ dep_isCameraOn _ || due _ dep_facingMode _).
  set (colorDue := due _ dep_detectedColor _).
  set (audioDue := due _ dep_audioUrl _).
  change (elements (setLastDeps ?d ?t)) with (elements t).
  destruct cameraDue; rewrite ?cameraEffect_elements;
    destruct colorDue; rewrite ?colorEffect_elements;
    destruct audioDue; rewrite ?audioEffect_elements;
    cbn [andb]; try reflexivity;
    destruct (bool_decide (is_Some (lastDeps s)));
    rewrite ?stopCameraStream_elements; reflexivity.
Qed.

Lemma paint_elements s : elements (paint s) = elements s.
Proof. unfold elements. now rewrite paint_refs. Qed.

Lemma flush_elements fuel s : elements (flush fuel s) = elements s.
Proof.
  revert s. induction fuel as [|n IH]; intros s; rewrite flush_eq;
    case_bool_decide; rewrite ?IH, ?runEffects_elements;
    apply paint_elements.
Qed.

(** *** What holds between two tasks *)

Lemma step_mounted e s : mounted s -> mounted (step e s).
Proof.
  intros [Hs He]. unfold step. rewrite Hs.
  destruct e; try exact (Build_mounted _ s Hs He);
    (split; [apply commit_settled|]);
    unfold commit; rewrite flush_elements, handle_elements; exact He.
Qed.

Lemma step_unmounted e p :
  step e (init p) = init p \/ mounted (step e (init p)).
Proof.
  destruct e; unfold step; change (lastDeps (init p)) with (@None Deps);
    cbn iota; auto.
  right. split.
  - apply commit_settled.
  - unfold commit. now rewrite flush_elements.
Qed.

(** A reachable state is the initial one or that of a mounted component. *)
Theorem reachable_mounted s :
  reachable s -> (exists p, s = init p) \/ mounted s.
Proof.
  induction 1 as [p|e s _ [[p ->]|IH]].
  - left. now exists p.
  - destruct (step_unmounted e p) as [-> | Hm]; [left; now exists p|now right].
  - right. now apply step_mounted.
Qed.

Lemma reachable_run es s : reachable s -> reachable (run es s).
Proof.
  unfold run. revert s.
  induction es as [|e es IH]; intros s Hs; [exact Hs|].
  cbn. apply IH. now constructor.
Qed.

(** A state reached with the camera switched on is that of a mounted
    component. *)
Lemma camera_on_mounted p es :
  isCameraOn (hooks (run es (init p))) = true -> mounted (run es (init p)).
Proof.
  intros Hon.
  destruct (reachable_mounted (run es (init p))) as [[q Hq]|Hm];
    [apply reachable_run; constructor| |exact Hm].
  rewrite Hq in Hon. discriminate.
Qed.

(** *** What a commit does *)

Lemma paint_browser s :
  let b := browser s in
  browser (paint s)
  = Build_Browser (mediaDevices b) (context2d b) (endedTracks b) (timers b)
      (nextTimer b) (pendingStreams b) (pendingPlays b) (pendingDetections b)
      (calls b)
      (if bool_decide (last (displayed b) = Some (status (hooks s)))
       then displayed b else displayed b ++ [status (hooks s)]).
Proof.
  unfold paint. case_bool_decide; [|reflexivity]. now destruct (browser s).
Qed.

(** With no effect due, a commit is a render. *)
Lemma commit_idle s : settled s -> commit s = paint s.
Proof.
  intros Hs. unfold commit. rewrite flush_eq.
  apply paint_settled in Hs. now rewrite (bool_decide_eq_true_2 _ Hs).
Qed.

Lemma startCamera_browser fm c s :
  let b := browser (stopCameraStream s) in
  browser (startCamera fm c s)
  = if mediaDevices (browser s)
    then Build_Browser (mediaDevices b) (context2d b) (endedTracks b)
           (timers b) (nextTimer b)
           (pendingStreams b
              ++ [{| req_facingMode := fm; req_captureAndDetect := c |}])
           (pendingPlays b) (pendingDetections b)
           (calls b ++ [GetUserMedia fm]) (displayed b)
    else b.
Proof.
  unfold startCamera. cbn. rewrite stopCameraStream_browser. cbn.
  destruct (mediaDevices (browser s)) eqn:Hmd; cbn;
    rewrite stopCameraStream_browser; cbn; rewrite ?Hmd; reflexivity.
Qed.

Lemma startCamera_refs fm c s :
  refs (startCamera fm c s) = refs (stopCameraStream s).
Proof. unfold startCamera. cbn. now destruct (mediaDevices _). Qed.

Lemma startCamera_lastDeps fm c s :
  lastDeps (startCamera fm c s) = lastDeps s.
Proof.
  unfold startCamera. cbn.
  destruct (mediaDevices _); cbn; apply stopCameraStream_lastDeps.
Qed.

(** The round of effects after a change of [isCameraOn] or [facingMode]
    alone (the colour effect, if due, finds an empty label): the clean-up
    of the camera effect, then its body. *)
Lemma runEffects_camera s d :
  lastDeps s = Some d ->
  dep_audioUrl d = audioUrl (hooks s) ->
  dep_detectedColor d = detectedColor (hooks s) \/ detectedColor (hooks s) = [] ->
  dep_isCameraOn d <> isCameraOn (hooks s)
    \/ dep_facingMode d <> facingMode (hooks s) ->
  runEffects s
  = setLastDeps (Some (depsOf (hooks s)))
      (cameraEffect (hooks s) (stopCameraStream s)).
Proof.
  intros Hd Ha Hc Hcam. unfold runEffects. cbn zeta. rewrite Hd.
  unfold due. cbn [depsOf dep_audioUrl dep_detectedColor dep_isCameraOn
    dep_facingMode].
  rewrite (bool_decide_eq_true_2 _ Ha). cbn [negb].
  assert (Hdue : negb (bool_decide (dep_isCameraOn d = isCameraOn (hooks s)))
                 || negb (bool_decide (dep_facingMode d = facingMode (hooks s)))
                 = true).
  { destruct Hcam as [H|H]; rewrite (bool_decide_eq_false_2 _ H); cbn;
      [reflexivity|apply orb_true_r]. }
  rewrite Hdue.
  assert (His : bool_decide (is_Some (Some d)) = true)
    by (apply bool_decide_eq_true_2; eauto).
  rewrite His. cbn [andb].
  assert (Hcolor : colorEffect (hooks s) (stopCameraStream s) = stopCameraStream s
                   \/ bool_decide (dep_detectedColor d = detectedColor (hooks s))
                      = true).
  { destruct Hc as [H|H]; [right; now apply bool_decide_eq_true_2|left].
    unfold colorEffect. now rewrite H. }
  destruct Hcolor as [H|H].
  - destruct (negb (bool_decide (dep_detectedColor d = detectedColor (hooks s))));
      rewrite ?H; reflexivity.
  - rewrite H. reflexivity.
Qed.

(** Two states that differ in [isCameraOn] or [facingMode] from the
    dependencies last seen are not settled. *)
Lemma camera_due_unsettled s d :
  lastDeps s = Some d ->
  dep_isCameraOn d <> isCameraOn (hooks s)
    \/ dep_facingMode d <> facingMode (hooks s) ->
  ~ settled s.
Proof.
  unfold settled. intros Hd Hcam Hs. rewrite Hd in Hs.
  inversion Hs as [Heq]. rewrite Heq in Hcam. cbn in Hcam.
  destruct Hcam as [H|H]; now apply H.
Qed.

(** The round that switches the camera on, or restarts it, where the
    browser has [getUserMedia]. *)
Lemma flush_camera_on n s d :
  lastDeps s = Some d ->
  dep_audioUrl d = audioUrl (hooks s) ->
  dep_detectedColor d = detectedColor (hooks s) \/ detectedColor (hooks s) = [] ->
  dep_isCameraOn d <> isCameraOn (hooks s)
    \/ dep_facingMode d <> facingMode (hooks s) ->
  isCameraOn (hooks s) = true ->
  mediaDevices (browser s) = true ->
  flush (S n) s
  = paint (setLastDeps (Some (depsOf (hooks s)))
      (startCamera (facingMode (hooks s)) (captureAndDetectOf (hooks s))
         (stopCameraStream (paint s)))).
Proof.
  intros Hd Ha Hc Hcam Hon Hmd. rewrite flush_eq.
  rewrite bool_decide_eq_false_2.
  2:{ rewrite paint_settled. now apply (camera_due_unsettled s d). }
  rewrite (runEffects_camera (paint s) d);
    rewrite ?paint_hooks, ?paint_lastDeps; auto.
  unfold cameraEffect at 1. rewrite Hon.
  rewrite flush_eq, bool_decide_eq_true_2; [reflexivity|].
  apply paint_settled. unfold settled. cbn [lastDeps setLastDeps hooks].
  rewrite startCamera_hooks, !stopCameraStream_browser. cbn.
  rewrite paint_browser. cbn. rewrite Hmd, stopCameraStream_hooks, paint_hooks.
  reflexivity.
Qed.

(** The round that switches the camera off. *)
Lemma flush_camera_off n s d :
  lastDeps s = Some d ->
  dep_audioUrl d = audioUrl (hooks s) ->
  dep_detectedColor d = detectedColor (hooks s) \/ detectedColor (hooks s) = [] ->
  dep_isCameraOn d <> isCameraOn (hooks s)
    \/ dep_facingMode d <> facingMode (hooks s) ->
  isCameraOn (hooks s) = false ->
  flush (S n) s
  = paint (setLastDeps (Some (depsOf (hooks s)))
      (setStatus Stopped (stopCameraStream (stopCameraStream (paint s))))).
Proof.
  intros Hd Ha Hc Hcam Hoff. rewrite flush_eq.
  rewrite bool_decide_eq_false_2.
  2:{ rewrite paint_settled. now apply (camera_due_unsettled s d). }
  rewrite (runEffects_camera (paint s) d);
    rewrite ?paint_hooks, ?paint_lastDeps; auto.
  unfold cameraEffect at 1. rewrite Hoff. cbn zeta.
  rewrite flush_eq, bool_decide_eq_true_2; [reflexivity|].
  apply paint_settled. unfold settled. cbn [lastDeps setLastDeps hooks].
  cbn. rewrite !stopCameraStream_hooks, paint_hooks. reflexivity.
Qed.

(** The two rounds of an activation where the browser has no
    [getUserMedia]: [startCamera] switches [isCameraOn] off again, so the
    camera effect runs a second time, now through its other branch. *)
Lemma flush_camera_unsupported n s d :
  lastDeps s = Some d ->
  dep_audioUrl d = audioUrl (hooks s) ->
  dep_detectedColor d = detectedColor (hooks s) \/ detectedColor (hooks s) = [] ->
  dep_isCameraOn d <> isCameraOn (hooks s)
    \/ dep_facingMode d <> facingMode (hooks s) ->
  isCameraOn (hooks s) = true ->
  mediaDevices (browser s) = false ->
  let s1 :=
    setLastDeps (Some (depsOf (hooks s)))
      (startCamera (facingMode (hooks s)) (captureAndDetectOf (hooks s))
         (stopCameraStream (paint s))) in
  flush (S (S n)) s
  = paint (setLastDeps (Some (depsOf (hooks s1)))
      (setStatus Stopped (stopCameraStream (stopCameraStream (paint s1))))).
Proof.
  intros Hd Ha Hc Hcam Hon Hmd s1. rewrite flush_eq.
  rewrite bool_decide_eq_false_2.
  2:{ rewrite paint_settled. now apply (camera_due_unsettled s d). }
  rewrite (runEffects_camera (paint s) d);
    rewrite ?paint_hooks, ?paint_lastDeps; auto.
  unfold cameraEffect at 1. rewrite Hon. fold s1.
  assert (Hh : hooks s1
    = Build_Hooks false (facingMode (hooks s)) Error (detectedColor (hooks s))
        (isLoading (hooks s)) (Some (lit "Camera not supported by this browser."))
        (audioUrl (hooks s)) (colorUpdateKey (hooks s))).
  { unfold s1. cbn [hooks setLastDeps]. rewrite startCamera_hooks.
    rewrite stopCameraStream_browser. cbn. rewrite paint_browser. cbn.
    now rewrite Hmd, stopCameraStream_hooks, paint_hooks. }
  apply (flush_camera_off n s1 (depsOf (hooks s))); rewrite ?Hh; cbn; auto.
  left. now rewrite Hon.
Qed.

(** A state whose refs are those of a stopped camera is left as it is by
    [stopCameraStream]. *)
Lemma stopCameraStream_idle_refs t u :
  refs t = refs (stopCameraStream u) -> stopCameraStream t = t.
Proof.
  intros Hr. apply stopCameraStream_idle; rewrite Hr, stopCameraStream_refs; cbn.
  - intros video Hv. destruct (videoRef (refs u)); [|discriminate].
    now inversion Hv.
  - reflexivity.
Qed.

(** [startCamera] where the browser has no [getUserMedia]. *)
Lemma startCamera_unsupported fm c s :
  mediaDevices (browser s) = false ->
  startCamera fm c s
  = setIsCameraOn false
      (setStatus Error
         (setError (Some (lit "Camera not supported by this browser."))
            (setError None (setStatus Initializing (stopCameraStream s))))).
Proof.
  intros Hmd. unfold startCamera. cbn. rewrite stopCameraStream_browser. cbn.
  now rewrite Hmd.
Qed.

Lemma browser_setLastDeps d s : browser (setLastDeps d s) = browser s.
Proof. reflexivity. Qed.

Lemma browser_setStatus v s : browser (setStatus v s) = browser s.
Proof. reflexivity. Qed.

Lemma browser_setError v s : browser (setError v s) = browser s.
Proof. reflexivity. Qed.

Lemma browser_setIsCameraOn v s : browser (setIsCameraOn v s) = browser s.
Proof. reflexivity. Qed.

Lemma browser_setIsLoading v s : browser (setIsLoading v s) = browser s.
Proof. reflexivity. Qed.

Lemma hooks_setLastDeps d s : hooks (setLastDeps d s) = hooks s.
Proof. reflexivity. Qed.

Lemma facingMode_setStatus v s :
  facingMode (hooks (setStatus v s)) = facingMode (hooks s).
Proof. reflexivity. Qed.

Lemma facingMode_setError v s :
  facingMode (hooks (setError v s)) = facingMode (hooks s).
Proof. reflexivity. Qed.

Lemma facingMode_setIsCameraOn v s :
  facingMode (hooks (setIsCameraOn v s)) = facingMode (hooks s).
Proof. reflexivity. Qed.

Lemma refs_setLastDeps d s : refs (setLastDeps d s) = refs s.
Proof. reflexivity. Qed.

Lemma refs_setStatus v s : refs (setStatus v s) = refs s.
Proof. reflexivity. Qed.

Lemma refs_setError v s : refs (setError v s) = refs s.
Proof. reflexivity. Qed.

Lemma refs_setIsCameraOn v s : refs (setIsCameraOn v s) = refs s.
Proof. reflexivity. Qed.

(** The state after an activation or a switch where the browser has no
    [getUserMedia]. *)
Lemma flush_unsupported_state s d :
  lastDeps s = Some d ->
  dep_audioUrl d = audioUrl (hooks s) ->
  dep_detectedColor d = detectedColor (hooks s) \/ detectedColor (hooks s) = [] ->
  dep_isCameraOn d <> isCameraOn (hooks s)
    \/ dep_facingMode d <> facingMode (hooks s) ->
  isCameraOn (hooks s) = true ->
  mediaDevices (browser s) = false ->
  exists d0 d1,
    flush 2 s
    = paint (setLastDeps d1 (setStatus Stopped (paint (setLastDeps d0
        (setIsCameraOn false
           (setStatus Error
              (setError (Some (lit "Camera not supported by this browser."))
                 (setError None
                    (setStatus Initializing (stopCameraStream (paint s))))))))))).
Proof.
  intros Hd Ha Hc Hcam Hon Hmd. rewrite flush_eq.
  rewrite bool_decide_eq_false_2.
  2:{ rewrite paint_settled. now apply (camera_due_unsettled s d). }
  rewrite (runEffects_camera (paint s) d);
    rewrite ?paint_hooks, ?paint_lastDeps; auto.
  unfold cameraEffect at 1. rewrite Hon.
  rewrite (startCamera_unsupported _ _ (stopCameraStream (paint s)))
    by (now rewrite stopCameraStream_browser, paint_browser).
  rewrite stopCameraStream_twice.
  set (t := stopCameraStream (paint s)).
  set (u := setIsCameraOn false (setStatus Error (setError _ (setError None
              (setStatus Initializing t))))).
  set (s1 := setLastDeps (Some (depsOf (hooks s))) u).
  assert (Hh : hooks t = hooks s)
    by (unfold t; now rewrite stopCameraStream_hooks, paint_hooks).
  assert (Hr : refs (paint s1) = refs t)
    by (now rewrite paint_refs).
  rewrite (flush_camera_off 0 s1 (depsOf (hooks s))).
  - rewrite stopCameraStream_twice.
    rewrite (stopCameraStream_idle_refs (paint s1) (paint s) Hr).
    eexists _, _. reflexivity.
  - reflexivity.
  - cbn. now rewrite Hh.
  - left. cbn. now rewrite Hh.
  - left. cbn. now rewrite Hon.
  - reflexivity.
Qed.

Lemma paint_calls s : calls (browser (paint s)) = calls (browser s).
Proof. now rewrite paint_browser. Qed.

Lemma paint_endedTracks s :
  endedTracks (browser (paint s)) = endedTracks (browser s).
Proof. now rewrite paint_browser. Qed.

Lemma paint_timers s : timers (browser (paint s)) = timers (browser s).
Proof. now rewrite paint_browser. Qed.

Lemma paint_mediaDevices s :
  mediaDevices (browser (paint s)) = mediaDevices (browser s).
Proof. now rewrite paint_browser. Qed.

End Frames.

(** ** The session controller *)

Section Controller.

Context {runtime : Runtime}.

#[local] Arguments stopCameraStream : simpl never.
#[local] Arguments startCamera : simpl never.
#[local] Arguments paint : simpl never.
#[local] Arguments releaseCalls : simpl never.

Lemma releaseCalls_refs s s' : refs s = refs s' -> releaseCalls s = releaseCalls s'.
Proof. unfold releaseCalls. now intros ->. Qed.

Lemma opposite_neq fm : opposite fm <> fm.
Proof. now destruct fm. Qed.

(** Pushing the projections of a state through renders, camera stops and
    camera starts. *)
Ltac project :=
  repeat (cbn;
          rewrite ?paint_browser, ?paint_refs, ?paint_hooks,
            ?startCamera_browser, ?startCamera_refs, ?startCamera_hooks,
            ?stopCameraStream_browser, ?stopCameraStream_refs,
            ?stopCameraStream_hooks).

(** C10: [stopCameraStream] is idempotent. After one run the video
    element carries no stream and no interval handle is held, so a second
    run returns the state unchanged (and makes no call). *)
Theorem stopCameraStream_idempotent (s : State) :
  stopCameraStream (stopCameraStream s) = stopCameraStream s
  /\ (forall video,
        videoRef (refs (stopCameraStream s)) = Some video ->
        srcObject video = None)
  /\ detectionIntervalRef (refs (stopCameraStream s)) = None
  /\ releaseCalls (stopCameraStream s) = [].
Proof.
  split; [apply stopCameraStream_twice|]. split; [|split].
  - rewrite stopCameraStream_refs. cbn. intros video Hv.
    destruct (videoRef (refs s)); [|discriminate]. now inversion Hv.
  - now rewrite stopCameraStream_refs.
  - apply releaseCalls_stopCameraStream.
Qed.

(** What releasing the camera in [s] leaves in the browser, through any
    number of further stops. *)
Lemma released_after_stop s s' :
  (match videoRef (refs s) with
   | Some {| srcObject := Some stream |} =>
       exists rest, endedTracks (browser s') = list_to_set stream ∪ rest
   | _ => True
   end) ->
  (match detectionIntervalRef (refs s) with
   | Some id => timers (browser s') = delete id (timers (browser s))
   | None => True
   end) ->
  released s s'.
Proof.
  intros Ht Hi. split.
  - intros video stream t Hv Hsrc Hin. rewrite Hv in Ht.
    destruct video as [o]. cbn in Hsrc. subst o.
    destruct Ht as [rest ->]. set_solver.
  - intros id Hid. rewrite Hid in Hi. rewrite Hi. apply lookup_delete_eq.
Qed.

(** Switching the facing mode in a settled state with the camera on,
    where the browser has [getUserMedia]. *)
Lemma switch_releases_supported s :
  settled s ->
  isCameraOn (hooks s) = true ->
  mediaDevices (browser s) = true ->
  let s' := commit (handleSwitchCamera s) in
  released s s'
  /\ calls (browser s')
     = calls (browser s) ++ releaseCalls s
       ++ [GetUserMedia (opposite (facingMode (hooks s)))]
  /\ facingMode (hooks s') = opposite (facingMode (hooks s))
  /\ pendingStreams (browser s')
     = pendingStreams (browser s)
       ++ [{| req_facingMode := opposite (facingMode (hooks s));
              req_captureAndDetect :=
                {| cap_isLoading := isLoading (hooks s);
                   cap_detectedColor := detectedColor (hooks s) |} |}].
Proof.
  intros Hs Hon Hmd. cbn zeta. unfold handleSwitchCamera. rewrite Hon.
  set (s0 := setFacingMode (opposite (facingMode (hooks s))) s).
  assert (Hd : lastDeps s0 = Some (depsOf (hooks s))) by exact Hs.
  assert (Hcam : dep_isCameraOn (depsOf (hooks s)) <> isCameraOn (hooks s0)
                 \/ dep_facingMode (depsOf (hooks s)) <> facingMode (hooks s0)).
  { right. cbn. intros H. now apply (opposite_neq (facingMode (hooks s))). }
  assert (Hrel : releaseCalls (paint s0) = releaseCalls s)
    by (apply releaseCalls_refs; now rewrite paint_refs).
  unfold commit.
  rewrite (flush_camera_on 1 s0 (depsOf (hooks s))); auto.
  split; [apply released_after_stop|]; project; rewrite ?Hmd; project.
  - destruct (videoRef (refs s)) as [[[stream|]]|]; cbn; eauto.
  - destruct (detectionIntervalRef (refs s)); cbn; auto.
  - rewrite releaseCalls_stopCameraStream, app_nil_r, Hrel, <- !app_assoc.
    repeat split; auto.
Qed.

(** The same where the browser has none: the camera is released and no
    stream is asked for. *)
Lemma switch_releases_unsupported s :
  settled s ->
  isCameraOn (hooks s) = true ->
  mediaDevices (browser s) = false ->
  let s' := commit (handleSwitchCamera s) in
  released s s'
  /\ calls (browser s') = calls (browser s) ++ releaseCalls s
  /\ facingMode (hooks s') = opposite (facingMode (hooks s)).
Proof.
  intros Hs Hon Hmd. cbn zeta. unfold handleSwitchCamera. rewrite Hon.
  set (s0 := setFacingMode (opposite (facingMode (hooks s))) s).
  assert (Hd : lastDeps s0 = Some (depsOf (hooks s))) by exact Hs.
  assert (Hcam : dep_isCameraOn (depsOf (hooks s)) <> isCameraOn (hooks s0)
                 \/ dep_facingMode (depsOf (hooks s)) <> facingMode (hooks s0)).
  { right. cbn. intros H. now apply (opposite_neq (facingMode (hooks s))). }
  destruct (flush_unsupported_state s0 (depsOf (hooks s))) as (d0 & d1 & Heq);
    auto.
  unfold commit. rewrite Heq. clear Heq.
  set (t := stopCameraStream (paint s0)).
  assert (Hb : browser t
    = let b := browser s in
      Build_Browser (mediaDevices b) (context2d b)
        (match videoRef (refs s) with
         | Some {| srcObject := Some stream |} =>
             list_to_set stream ∪ endedTracks b
         | _ => endedTracks b
         end)
        (match detectionIntervalRef (refs s) with
         | Some id => delete id (timers b)
         | None => timers b
         end)
        (nextTimer b) (pendingStreams b) (pendingPlays b)
        (pendingDetections b) (calls b ++ releaseCalls s)
        (displayed (browser (paint s0)))).
  { unfold t. rewrite stopCameraStream_browser, paint_refs.
    rewrite (releaseCalls_refs (paint s0) s) by (now rewrite paint_refs).
    now rewrite paint_browser. }
  split; [apply released_after_stop|split].
  - rewrite paint_endedTracks, browser_setLastDeps, browser_setStatus,
      paint_endedTracks, browser_setLastDeps, browser_setIsCameraOn,
      browser_setStatus, !browser_setError, browser_setStatus, Hb.
    cbn. destruct (videoRef (refs s)) as [[[stream|]]|]; cbn; eauto.
  - rewrite paint_timers, browser_setLastDeps, browser_setStatus,
      paint_timers, browser_setLastDeps, browser_setIsCameraOn,
      browser_setStatus, !browser_setError, browser_setStatus, Hb.
    cbn. destruct (detectionIntervalRef (refs s)); cbn; auto.
  - rewrite paint_calls, browser_setLastDeps, browser_setStatus,
      paint_calls, browser_setLastDeps, browser_setIsCameraOn,
      browser_setStatus, !browser_setError, browser_setStatus, Hb.
    reflexivity.
  - rewrite paint_hooks, hooks_setLastDeps, facingMode_setStatus,
      paint_hooks, hooks_setLastDeps, facingMode_setIsCameraOn,
      facingMode_setStatus, !facingMode_setError, facingMode_setStatus.
    unfold t. rewrite stopCameraStream_hooks, paint_hooks. reflexivity.
Qed.

(** Switching the camera off in a settled state. *)
Lemma toggle_off_releases s :
  settled s ->
  isCameraOn (hooks s) = true ->
  let s' := commit (handleToggleCamera s) in
  released s s'
  /\ calls (browser s') = calls (browser s) ++ releaseCalls s
  /\ isCameraOn (hooks s') = false.
Proof.
  intros Hs Hon. cbn zeta. unfold handleToggleCamera. rewrite Hon. cbn [negb].
  set (s0 := setDetectedColor [] (setIsCameraOn false s)).
  assert (Hd : lastDeps s0 = Some (depsOf (hooks s))) by exact Hs.
  assert (Hrel : releaseCalls (paint s0) = releaseCalls s)
    by (apply releaseCalls_refs; now rewrite paint_refs).
  unfold commit.
  rewrite (flush_camera_off 1 s0 (depsOf (hooks s))); auto.
  - split; [apply released_after_stop|]; project.
    + destruct (videoRef (refs s)) as [[[stream|]]|]; cbn; eauto.
    + destruct (detectionIntervalRef (refs s)); cbn; auto.
    + rewrite !releaseCalls_stopCameraStream, !app_nil_r, Hrel. auto.
  - left. cbn. rewrite Hon. discriminate.
Qed.

Lemma step_settled e s :
  settled s -> step e s = match e with Mount => s | _ => commit (handle e s) end.
Proof. intros Hs. unfold step. rewrite Hs. now destruct e. Qed.

(** X21: in every state the component reaches with the camera on,
    switching the facing mode stops every track of the stream on the video
    element and cancels the timer held in [detectionIntervalRef], and only
    then asks [getUserMedia] for a stream with the opposite facing mode;
    switching the camera off makes the same stops and asks for no
    stream. The calls are listed in the order they are made. Only what
    the two refs hold is released: a stream or a timer of an earlier,
    overlapping activation is not. *)
Theorem camera_released_before_restart (p : Platform) (es : list Event) :
  let s := run es (init p) in
  isCameraOn (hooks s) = true ->
  (let s' := step ClickSwitch s in
   let request := GetUserMedia (opposite (facingMode (hooks s))) in
   released s s'
   /\ calls (browser s')
      = calls (browser s) ++ releaseCalls s
        ++ (if mediaDevices (browser s) then [request] else [])
   /\ facingMode (hooks s') = opposite (facingMode (hooks s))
   /\ (mediaDevices (browser s) = true ->
       pendingStreams (browser s')
       = pendingStreams (browser s)
         ++ [{| req_facingMode := opposite (facingMode (hooks s));
                req_captureAndDetect :=
                  {| cap_isLoading := isLoading (hooks s);
                     cap_detectedColor := detectedColor (hooks s) |} |}]))
  /\ (let s' := step ClickToggle s in
      released s s'
      /\ calls (browser s') = calls (browser s) ++ releaseCalls s
      /\ isCameraOn (hooks s') = false).
Proof.
  intros s Hon. destruct (camera_on_mounted p es Hon) as [Hs _].
  fold s in Hs. clearbody s. rewrite !(step_settled _ s Hs). split.
  - cbn zeta iota. destruct (mediaDevices (browser s)) eqn:Hmd.
    + destruct (switch_releases_supported s Hs Hon Hmd) as (H1 & H2 & H3 & H4).
      exact (conj H1 (conj H2 (conj H3 (fun _ => H4)))).
    + destruct (switch_releases_unsupported s Hs Hon Hmd) as (H1 & H2 & H3).
      rewrite app_nil_r.
      refine (conj H1 (conj H2 (conj H3 _))). intros H. discriminate H.
  - exact (toggle_off_releases s Hs Hon).
Qed.

End Controller.

(** ** The classification client *)

Lemma stripClass_clean (s : jsstring) (c : N) :
  c ∈ stripClass s -> inClass c = false.
Proof.
  unfold stripClass. intros Hc.
  apply list_elem_of_filter in Hc. tauto.
Qed.

Lemma stripClass_keeps (s : jsstring) (c : N) :
  c ∈ s -> inClass c = false -> c ∈ stripClass s.
Proof.
  unfold stripClass. intros Hc Hk.
  apply list_elem_of_filter. tauto.
Qed.

(** X19: the label is the trimmed response text with
    every character of the class [. , / # ! $ % ^ & * ; : { } = - _ ` ~ ( )]
    removed, so none of these characters occurs in it and every other
    character of the trimmed text is kept; the response "Blue." gives the
    label "Blue". *)
Theorem detectColorFromImage_sanitized :
  (forall text : jsstring,
      detectColorFromImage (Responds (Some text))
        = Returns (stripClass (trim text))
      /\ (forall c, c ∈ stripClass (trim text) -> inClass c = false)
      /\ (forall c, c ∈ trim text -> inClass c = false ->
                    c ∈ stripClass (trim text)))
  /\ detectColorFromImage (Responds (Some (lit "Blue."))) = Returns (lit "Blue")
  /\ isPunctuation 46 = true /\ forallb (fun c => negb (isPunctuation c)) (lit "Blue") = true
  /\ singleWord (lit "Blue") = true.
Proof.
  split.
  - intros text. split; [reflexivity|]. split.
    + apply stripClass_clean.
    + apply stripClass_keeps.
  - repeat split; vm_compute; reflexivity.
Qed.

(** C1, at a failing input: the response "Blue?" contains a punctuation
    character and the label returned for it is "Blue?", which contains it
    still: the class of the sanitizing step, written to remove
    punctuation, has no [?]. *)
Lemma detectColorFromImage_keeps_question_mark :
  existsb isPunctuation (lit "Blue?") = true
  /\ exists label,
       detectColorFromImage (Responds (Some (lit "Blue?"))) = Returns label
       /\ label = lit "Blue?"
       /\ existsb isPunctuation label = true.
Proof.
  split; [vm_compute; reflexivity|].
  exists (lit "Blue?"). repeat split; vm_compute; reflexivity.
Qed.

(** C8: when [process.env] has no [API_KEY], evaluating the client module
    throws, so loading the application throws as well and no component
    state exists in which a classification call could be made. *)
Theorem missing_key_is_fatal (env : gmap string jsstring) (p : Platform) :
  env !! "API_KEY"%string = None ->
  load env = Throws (lit "API_KEY environment variable not set")
  /\ start env p = Throws (lit "API_KEY environment variable not set")
  /\ forall s, start env p <> Returns s.
Proof.
  intros Hkey. unfold start, load, API_KEY. rewrite Hkey.
  repeat split. intros s H. discriminate H.
Qed.

Lemma missing_key_is_fatal_witness :
  let env : gmap string jsstring := ∅ in
  let p := {| supportsGetUserMedia := true; supportsContext2d := true |} in
  load env = Throws (lit "API_KEY environment variable not set")
  /\ start env p = Throws (lit "API_KEY environment variable not set")
  /\ forall s, start env p <> Returns s.
Proof.
  apply (missing_key_is_fatal ∅).
  reflexivity.
Defined.

(** ** Concrete sessions *)

Section Sessions.

#[local] Existing Instance asciiRuntime.

(** C2, at a failing input: after an activation the timer fires and the
    first classification call is made; the loading flag is set and the
    call is pending. When the timer fires again before that call settles,
    a second capture is made and a second call is sent: the callback the
    interval holds is the [captureAndDetect] of the render in which the
    camera effect ran, whose [isLoading] is still [false]. *)
Theorem second_tick_overlaps_first_call :
  let s := run (activation ++ [TimerFired 1 (lit "frame-1")]) (init desktop) in
  let s' := step (TimerFired 1 (lit "frame-2")) s in
  isLoading (hooks s) = true
  /\ length (pendingDetections (browser s)) = 1%nat
  /\ timers (browser s) !! 1%positive
     = Some {| cap_isLoading := false; cap_detectedColor := [] |}
  /\ length (pendingDetections (browser s')) = 2%nat
  /\ calls (browser s')
     = calls (browser s) ++ [GenerateContentCall (lit "frame-2")].
Proof. vm_compute. repeat split. Qed.

(** C7, as the specification words it, fails: the status badge of an
    activation shows Ready, Stopped, Initializing, Detecting. The mount
    effect runs with the camera off and sets Stopped before anything can
    be clicked. *)
Lemma activation_passes_through_Stopped :
  displayed (browser (run activation (init desktop)))
  = [Ready; Stopped; Initializing; Detecting]
  /\ displayed (browser (run activation (init desktop)))
     <> [Ready; Initializing; Detecting].
Proof. vm_compute. split; [reflexivity|discriminate]. Qed.

End Sessions.

(** ** Activation and its failures *)

Section Activation.

Context {runtime : Runtime}.

(** C7, as the code has it: where the browser has [getUserMedia], an
    activation whose stream is granted and whose playback starts shows the
    statuses Ready, Stopped, Initializing, Detecting, in this order:
    Stopped is what the mount effect leaves before the camera is switched
    on. *)
Theorem activation_statuses (p : Platform) (stream : MediaStream) :
  supportsGetUserMedia p = true ->
  let s0 := run [Mount] (init p) in
  let s := run (activationWith stream) (init p) in
  status (hooks (init p)) = Ready
  /\ status (hooks s0) = Stopped
  /\ status (hooks (step ClickToggle s0)) = Initializing
  /\ status (hooks s) = Detecting
  /\ displayed (browser s) = [Ready; Stopped; Initializing; Detecting].
Proof.
  destruct p as [g c]. cbn [supportsGetUserMedia]. intros ->.
  vm_compute. repeat split.
Qed.

(** C3: when the camera request fails, [startCamera] sets the status to
    Error with a fixed message, switches [isCameraOn] off and registers no
    timer. Where the browser has no [getUserMedia] this happens in the
    call itself, which makes no call but those that release the camera;
    where [getUserMedia] rejects it happens in the [catch] block, which
    leaves refs and browser as they are. *)
Theorem startCamera_failure (fm : FacingMode) (c : CaptureAndDetect)
    (s : State) (i : nat) (r : StartCamera) :
  (mediaDevices (browser s) = false ->
   let s' := startCamera fm c s in
   status (hooks s') = Error
   /\ error (hooks s') = Some (lit "Camera not supported by this browser.")
   /\ isCameraOn (hooks s') = false
   /\ calls (browser s') = calls (browser s) ++ releaseCalls s
   /\ detectionIntervalRef (refs s') = None
   /\ nextTimer (browser s') = nextTimer (browser s))
  /\ (pendingStreams (browser s) !! i = Some r ->
      let s' := handle (StreamDenied i) s in
      status (hooks s') = Error
      /\ error (hooks s')
         = Some (lit "Camera access denied. Please allow camera permissions in your browser settings.")
      /\ isCameraOn (hooks s') = false
      /\ calls (browser s') = calls (browser s)
      /\ timers (browser s') = timers (browser s)
      /\ detectionIntervalRef (refs s') = detectionIntervalRef (refs s)
      /\ nextTimer (browser s') = nextTimer (browser s)).
Proof.
  split.
  - intros Hmd. cbn zeta. rewrite (startCamera_unsupported fm c s Hmd).
    cbn [hooks refs browser setIsCameraOn setStatus setError withHooks
         status error isCameraOn].
    rewrite stopCameraStream_browser, stopCameraStream_refs.
    repeat split.
  - intros Hp. cbn [handle]. rewrite Hp. repeat split.
Qed.

End Activation.

Lemma activation_statuses_witness :
  supportsGetUserMedia desktop = true
  /\ displayed (browser (@run asciiRuntime (activationWith [0%nat]) (init desktop)))
     = [Ready; Stopped; Initializing; Detecting].
Proof.
  split; [reflexivity|].
  apply (@activation_statuses asciiRuntime desktop [0%nat]).
  reflexivity.
Defined.

Lemma startCamera_failure_witness :
  let s := @run asciiRuntime [Mount; ClickToggle] (init desktop) in
  pendingStreams (browser s) !! 0%nat
  = Some {| req_facingMode := environment;
            req_captureAndDetect :=
              {| cap_isLoading := false; cap_detectedColor := [] |} |}
  /\ status (hooks (@handle asciiRuntime (StreamDenied 0) s)) = Error
  /\ isCameraOn (hooks (@handle asciiRuntime (StreamDenied 0) s)) = false
  /\ mediaDevices (browser (init {| supportsGetUserMedia := false;
                                     supportsContext2d := true |})) = false
  /\ status (hooks (startCamera environment
                      {| cap_isLoading := false; cap_detectedColor := [] |}
                      (init {| supportsGetUserMedia := false;
                               supportsContext2d := true |}))) = Error.
Proof.
  intros s.
  pose proof (@startCamera_failure asciiRuntime environment
                {| cap_isLoading := false; cap_detectedColor := [] |}
                s 0%nat
                {| req_facingMode := environment;
                   req_captureAndDetect :=
                     {| cap_isLoading := false; cap_detectedColor := [] |} |})
    as [_ Hdenied].
  pose proof (@startCamera_failure asciiRuntime environment
                {| cap_isLoading := false; cap_detectedColor := [] |}
                (init {| supportsGetUserMedia := false;
                         supportsContext2d := true |}) 0%nat
                {| req_facingMode := environment;
                   req_captureAndDetect :=
                     {| cap_isLoading := false; cap_detectedColor := [] |} |})
    as [Hunsupported _].
  assert (Hp : pendingStreams (browser s) !! 0%nat
               = Some {| req_facingMode := environment;
                         req_captureAndDetect :=
                           {| cap_isLoading := false; cap_detectedColor := [] |} |})
    by (vm_compute; reflexivity).
  destruct (Hdenied Hp) as (H1 & _ & H3 & _).
  destruct (Hunsupported eq_refl) as (H4 & _).
  repeat split; assumption.
Defined.

(** ** Detection cycles *)

Section Detection.

Context {runtime : Runtime}.

(** Rendering and effects never change the detected colour. *)
Lemma flush_detectedColor n s :
  detectedColor (hooks (flush n s)) = detectedColor (hooks s).
Proof.
  revert s. induction n as [|n IH]; intros s; rewrite flush_eq;
    case_bool_decide; rewrite ?IH, ?paint_hooks; try reflexivity.
  destruct (runEffects_hooks (paint s)) as (Hc & _).
  cbn zeta in Hc. now rewrite Hc, paint_hooks.
Qed.

(** A state with a pending promise or a live timer is not the initial
    one. *)
Lemma not_initial_mounted p es :
  pendingDetections (browser (run es (init p))) <> []
  \/ timers (browser (run es (init p))) <> ∅ ->
  mounted (run es (init p)).
Proof.
  intros Hne.
  destruct (reachable_mounted (run es (init p))) as [[q Hq]|Hm];
    [apply reachable_run; constructor| |exact Hm].
  rewrite Hq in Hne. cbn in Hne. destruct Hne as [H|H]; now destruct H.
Qed.

Lemma pending_detection_mounted p es i d :
  pendingDetections (browser (run es (init p))) !! i = Some d ->
  mounted (run es (init p)).
Proof.
  intros Hi. apply not_initial_mounted. left. intros Hnil.
  rewrite Hnil in Hi. discriminate Hi.
Qed.

(** A handler that leaves the effect dependencies alone leaves the state
    settled. *)
Lemma settled_frame s s' :
  settled s -> lastDeps s' = lastDeps s ->
  depsOf (hooks s') = depsOf (hooks s) -> settled s'.
Proof. unfold settled. now intros Hs -> ->. Qed.

(** The [catch] and [finally] blocks of [captureAndDetect], field by
    field. *)
Lemma captureAndDetect_rejected_hooks s :
  let h := hooks s in
  hooks (captureAndDetect_rejected s)
  = Build_Hooks (isCameraOn h) (facingMode h) Error (detectedColor h) false
      (Some (lit "Could not detect color. Please try again."))
      (audioUrl h) (colorUpdateKey h).
Proof. reflexivity. Qed.

Lemma captureAndDetect_rejected_frame s :
  refs (captureAndDetect_rejected s) = refs s
  /\ browser (captureAndDetect_rejected s) = browser s
  /\ lastDeps (captureAndDetect_rejected s) = lastDeps s.
Proof. repeat split. Qed.

Lemma setPendingDetections_frame l s :
  hooks (setPendingDetections l s) = hooks s
  /\ refs (setPendingDetections l s) = refs s
  /\ lastDeps (setPendingDetections l s) = lastDeps s
  /\ timers (browser (setPendingDetections l s)) = timers (browser s)
  /\ calls (browser (setPendingDetections l s)) = calls (browser s)
  /\ context2d (browser (setPendingDetections l s)) = context2d (browser s).
Proof. repeat split. Qed.

(** A tick whose callback has [isLoading] false, on a mounted component:
    the guard lets it through. *)
Lemma captureAndDetect_runs c image s :
  cap_isLoading c = false ->
  elements s = (true, Some CanvasElement, Some AudioElement) ->
  captureAndDetect c image s
  = if context2d (browser s)
    then setPendingDetections
           (pendingDetections (browser s)
              ++ [{| det_image := image;
                     det_detectedColor := cap_detectedColor c |}])
           (logCall (GenerateContentCall image)
              (setStatus Detecting (setIsLoading true s)))
    else setIsLoading false (setStatus Detecting (setIsLoading true s)).
Proof.
  intros Hc He. unfold captureAndDetect. rewrite Hc.
  unfold elements in He. inversion He as [[Hv Hcv Ha]].
  rewrite Hv, Hcv. reflexivity.
Qed.

(** C9: in every state the component reaches, a classification call that
    resolves with the empty label leaves [detectedColor], [audioUrl] and
    [colorUpdateKey] as they are and makes no call at all, so nothing is
    announced. *)
Theorem empty_label_changes_nothing (p : Platform) (es : list Event)
    (i : nat) (d : Detection) (r : GenerateContent) :
  let s := run es (init p) in
  pendingDetections (browser s) !! i = Some d ->
  detectColorFromImage r = Returns [] ->
  let s' := step (ServiceSettled i r) s in
  detectedColor (hooks s') = detectedColor (hooks s)
  /\ audioUrl (hooks s') = audioUrl (hooks s)
  /\ colorUpdateKey (hooks s') = colorUpdateKey (hooks s)
  /\ calls (browser s') = calls (browser s).
Proof.
  intros s Hi Hr. destruct (pending_detection_mounted p es i d Hi) as [Hs _].
  fold s in Hs. clearbody s. cbn zeta.
  rewrite (step_settled _ s Hs). cbn [handle]. rewrite Hi, Hr.
  unfold captureAndDetect_resolved. cbn [truthy andb].
  rewrite commit_idle by exact Hs.
  rewrite paint_hooks, paint_calls. repeat split.
Qed.

(** X22: in every state the component reaches, the label a
    classification call resolves with is compared with the label of the
    render in which its interval was started, not with the one on
    display. An empty label, and a label equal up to case to the one
    compared against, leave the displayed label as it is; a non-empty
    label that differs from it up to case is put on display. *)
Theorem displayed_label_after_result (p : Platform) (es : list Event)
    (i : nat) (d : Detection) (r : GenerateContent) (color : jsstring) :
  let s := run es (init p) in
  pendingDetections (browser s) !! i = Some d ->
  detectColorFromImage r = Returns color ->
  let s' := step (ServiceSettled i r) s in
  (color = [] -> detectedColor (hooks s') = detectedColor (hooks s))
  /\ (toLowerCase color = toLowerCase (det_detectedColor d) ->
      detectedColor (hooks s') = detectedColor (hooks s))
  /\ (color <> [] ->
      toLowerCase color <> toLowerCase (det_detectedColor d) ->
      detectedColor (hooks s') = color).
Proof.
  intros s Hi Hr. destruct (pending_detection_mounted p es i d Hi) as [Hs _].
  fold s in Hs. clearbody s. cbn zeta.
  rewrite (step_settled _ s Hs). cbn [handle]. rewrite Hi, Hr.
  unfold commit. rewrite flush_detectedColor.
  unfold captureAndDetect_resolved, strictNe, strictEq. split; [|split].
  - intros ->. reflexivity.
  - intros Heq. rewrite (bool_decide_eq_true_2 _ Heq), andb_false_r.
    reflexivity.
  - intros Hne Hdiff. rewrite (bool_decide_eq_false_2 _ Hdiff).
    destruct color; [contradiction|reflexivity].
Qed.

(** X20: in every state the component reaches, a classification call that
    throws sets the status to Error with a fixed message and clears the
    loading flag; it cancels no timer, makes no call and leaves
    [detectionIntervalRef] alone. A live timer whose callback closed over
    [isLoading = false] then runs its next cycle: the status goes to
    Detecting and, with a 2d context, the next image is sent. Nothing is
    said of a timer whose callback closed over [isLoading = true]. *)
Theorem detection_failure_keeps_interval (p : Platform) (es : list Event)
    (i : nat) (d : Detection) (r : GenerateContent) (message : jsstring) :
  let s := run es (init p) in
  pendingDetections (browser s) !! i = Some d ->
  detectColorFromImage r = Throws message ->
  let s' := step (ServiceSettled i r) s in
  status (hooks s') = Error
  /\ error (hooks s') = Some (lit "Could not detect color. Please try again.")
  /\ isLoading (hooks s') = false
  /\ timers (browser s') = timers (browser s)
  /\ detectionIntervalRef (refs s') = detectionIntervalRef (refs s)
  /\ calls (browser s') = calls (browser s)
  /\ forall id c image,
       timers (browser s) !! id = Some c ->
       cap_isLoading c = false ->
       let s'' := step (TimerFired id image) s' in
       status (hooks s'') = Detecting
       /\ (context2d (browser s) = true ->
           isLoading (hooks s'') = true
           /\ calls (browser s'')
              = calls (browser s) ++ [GenerateContentCall image]).
Proof.
  intros s Hi Hr. destruct (pending_detection_mounted p es i d Hi) as [Hs He].
  fold s in Hs, He. clearbody s. cbn zeta.
  rewrite (step_settled _ s Hs). cbn [handle]. rewrite Hi, Hr.
  set (s0 := setPendingDetections (delete i (pendingDetections (browser s))) s).
  set (s1 := captureAndDetect_rejected s0).
  assert (Hs1 : settled s1) by exact Hs.
  assert (He1 : elements (paint s1) = (true, Some CanvasElement, Some AudioElement))
    by (rewrite paint_elements; exact He).
  rewrite (commit_idle s1 Hs1).
  rewrite paint_hooks, paint_timers, paint_calls, paint_refs.
  do 6 (split; [reflexivity|]).
  intros id c image Ht Hc.
  assert (Hs2 : settled (paint s1)) by (now apply paint_settled).
  rewrite (step_settled _ (paint s1) Hs2). cbn [handle].
  rewrite paint_timers.
  change (timers (browser s1)) with (timers (browser s)). rewrite Ht.
  rewrite (captureAndDetect_runs c image (paint s1) Hc He1).
  rewrite paint_browser.
  change (context2d _) with (context2d (browser s)).
  destruct (context2d (browser s)).
  - rewrite commit_idle by exact Hs2.
    rewrite paint_hooks, paint_calls. split; [reflexivity|].
    intros _. split; [reflexivity|].
    cbn [calls browser setPendingDetections logCall withBrowser].
    now rewrite browser_setStatus, browser_setIsLoading, paint_calls.
  - rewrite commit_idle by exact Hs2.
    rewrite paint_hooks. split; [reflexivity|]. intros H. discriminate H.
Qed.

End Detection.

(** ** Witnesses and counterexamples on concrete sessions *)

Lemma camera_released_before_restart_witness :
  let s := @run asciiRuntime activation (init desktop) in
  isCameraOn (hooks s) = true
  /\ calls (browser (@step asciiRuntime ClickSwitch s))
     = calls (browser s) ++ releaseCalls s ++ [GetUserMedia user]
  /\ calls (browser (@step asciiRuntime ClickToggle s))
     = calls (browser s) ++ releaseCalls s.
Proof.
  cbv zeta.
  assert (Hon : isCameraOn (hooks (@run asciiRuntime activation (init desktop)))
                = true) by (vm_compute; reflexivity).
  pose proof (@camera_released_before_restart asciiRuntime desktop activation Hon)
    as H.
  cbv zeta in H. destruct H as [(_ & Hswitch & _) (_ & Htoggle & _)].
  exact (conj Hon (conj Hswitch Htoggle)).
Defined.

Lemma empty_label_changes_nothing_witness :
  let s := @run asciiRuntime firstTick (init desktop) in
  let r := Responds (Some (lit ".")) in
  pendingDetections (browser s) !! 0%nat = Some firstDetection
  /\ detectColorFromImage r = Returns []
  /\ audioUrl (hooks (@step asciiRuntime (ServiceSettled 0 r) s)) = audioUrl (hooks s)
  /\ calls (browser (@step asciiRuntime (ServiceSettled 0 r) s)) = calls (browser s).
Proof.
  cbv zeta.
  assert (Hi : pendingDetections
                 (browser (@run asciiRuntime firstTick (init desktop))) !! 0%nat
               = Some firstDetection) by (vm_compute; reflexivity).
  assert (Hr : detectColorFromImage (Responds (Some (lit "."))) = Returns [])
    by (vm_compute; reflexivity).
  pose proof (@empty_label_changes_nothing asciiRuntime desktop firstTick 0%nat
                firstDetection _ Hi Hr) as H.
  cbv zeta in H. destruct H as (_ & Ha & _ & Hc).
  exact (conj Hi (conj Hr (conj Ha Hc))).
Defined.

Lemma displayed_label_after_result_witness :
  let s := @run asciiRuntime blueThenSwitch (init desktop) in
  let d := {| det_image := lit "frame-2"; det_detectedColor := lit "Blue" |} in
  let r := Responds (Some (lit "blue")) in
  pendingDetections (browser s) !! 0%nat = Some d
  /\ detectColorFromImage r = Returns (lit "blue")
  /\ @toLowerCase asciiRuntime (lit "blue")
     = @toLowerCase asciiRuntime (det_detectedColor d)
  /\ detectedColor (hooks (@step asciiRuntime (ServiceSettled 0 r) s))
     = detectedColor (hooks s).
Proof.
  cbv zeta.
  assert (Hi : pendingDetections
                 (browser (@run asciiRuntime blueThenSwitch (init desktop)))
                 !! 0%nat
               = Some {| det_image := lit "frame-2";
                         det_detectedColor := lit "Blue" |})
    by (vm_compute; reflexivity).
  assert (Hr : detectColorFromImage (Responds (Some (lit "blue")))
               = Returns (lit "blue")) by (vm_compute; reflexivity).
  assert (Hlow : @toLowerCase asciiRuntime (lit "blue")
                 = @toLowerCase asciiRuntime (lit "Blue"))
    by (vm_compute; reflexivity).
  pose proof (@displayed_label_after_result asciiRuntime desktop blueThenSwitch
                0%nat _ _ (lit "blue") Hi Hr) as H.
  cbv zeta in H. destruct H as (_ & Hsame & _).
  exact (conj Hi (conj Hr (conj Hlow (Hsame Hlow)))).
Defined.

Lemma detection_failure_keeps_interval_witness :
  let s := @run asciiRuntime firstTick (init desktop) in
  let s' := @step asciiRuntime (ServiceSettled 0 Fails) s in
  pendingDetections (browser s) !! 0%nat = Some firstDetection
  /\ detectColorFromImage Fails
     = Throws (lit "Failed to get response from AI model.")
  /\ status (hooks s') = Error
  /\ isLoading (hooks s') = false
  /\ timers (browser s') = timers (browser s)
  /\ status (hooks (@step asciiRuntime (TimerFired 1 (lit "frame-2")) s'))
     = Detecting.
Proof.
  cbv zeta.
  assert (Hi : pendingDetections
                 (browser (@run asciiRuntime firstTick (init desktop))) !! 0%nat
               = Some firstDetection) by (vm_compute; reflexivity).
  assert (Hr : detectColorFromImage Fails
               = Throws (lit "Failed to get response from AI model."))
    by reflexivity.
  pose proof (@detection_failure_keeps_interval asciiRuntime desktop firstTick
                0%nat firstDetection Fails _ Hi Hr) as H.
  cbv zeta in H. destruct H as (H1 & _ & H3 & H4 & _ & _ & Hnext).
  assert (Ht : timers (browser (@run asciiRuntime firstTick (init desktop)))
                 !! 1%positive
               = Some {| cap_isLoading := false; cap_detectedColor := [] |})
    by (vm_compute; reflexivity).
  exact (conj Hi (conj Hr (conj H1 (conj H3 (conj H4
           (proj1 (Hnext 1%positive _ (lit "frame-2") Ht eq_refl))))))).
Defined.

(** ** More on the classification client *)

(** [trimStart] drops a prefix and [trimEnd] a suffix. *)
Lemma trimStart_suffix (s : jsstring) : exists k, s = k ++ trimStart s.
Proof.
  induction s as [|c s [k IH]]; [now exists []|].
  cbn. destruct (isWhiteSpace c).
  - exists (c :: k). cbn. now rewrite <- IH.
  - now exists [].
Qed.

Lemma trimEnd_prefix (s : jsstring) : exists k, s = trimEnd s ++ k.
Proof.
  unfold trimEnd. destruct (trimStart_suffix (rev s)) as [k Hk].
  exists (rev k). rewrite <- rev_app_distr, <- Hk. now rewrite rev_involutive.
Qed.

(** A string that neither starts nor ends with white space is its own
    trim. *)
Lemma trimStart_fixed (s : jsstring) :
  match s with [] => True | c :: _ => isWhiteSpace c = false end ->
  trimStart s = s.
Proof. destruct s as [|c s]; [reflexivity|]. cbn. now intros ->. Qed.

Lemma trim_fixed (s : jsstring) :
  match s with [] => True | c :: _ => isWhiteSpace c = false end ->
  match last s with None => True | Some c => isWhiteSpace c = false end ->
  trim s = s.
Proof.
  intros Hfirst Hlast. unfold trim, trimEnd.
  rewrite (trimStart_fixed s Hfirst).
  rewrite trimStart_fixed; [apply rev_involutive|].
  destruct (rev s) as [|c t] eqn:Hrev; [exact I|].
  assert (Hs : s = rev t ++ [c]).
  { rewrite <- (rev_involutive s), Hrev. reflexivity. }
  rewrite Hs, last_snoc in Hlast. exact Hlast.
Qed.

Lemma stripClass_fixed (s : jsstring) :
  (forall c, c ∈ s -> inClass c = false) -> stripClass s = s.
Proof.
  unfold stripClass, jsstring in *.
  induction s as [|c s IH]; intros Hs; [reflexivity|].
  rewrite filter_cons_True by (apply Hs; left).
  f_equal. apply IH. intros c' Hc'. apply Hs. now right.
Qed.

(** X1: the client module loads exactly when [process.env.API_KEY] is a
    non-empty string, and then the client is built with that key; an
    empty key is as fatal as a missing one. *)
Theorem load_needs_nonempty_key (env : gmap string jsstring) :
  (forall k, load env = Returns {| apiKey := k |}
             <-> env !! "API_KEY"%string = Some k /\ k <> [])
  /\ (load env = Throws (lit "API_KEY environment variable not set")
      <-> env !! "API_KEY"%string = None \/ env !! "API_KEY"%string = Some []).
Proof.
  unfold load, API_KEY, falsy.
  destruct (env !! "API_KEY"%string) as [[|c k']|]; cbn; split.
  - intros k. split; [discriminate|]. intros [H Hne]. congruence.
  - split; auto.
  - intros k. split.
    + intros H. inversion H. split; [reflexivity|discriminate].
    + intros [H _]. now inversion H.
  - split; [discriminate|]. intros [H|H]; discriminate H.
  - intros k. split; [discriminate|]. intros [H _]. discriminate H.
  - split; auto.
Qed.

(** X2: an answer that contains no character of the stripped class and
    neither starts nor ends with white space is returned as the label,
    unchanged. *)
Theorem clean_answer_unchanged (text : jsstring) :
  (forall c, c ∈ text -> inClass c = false) ->
  match text with [] => True | c :: _ => isWhiteSpace c = false end ->
  match last text with None => True | Some c => isWhiteSpace c = false end ->
  detectColorFromImage (Responds (Some text)) = Returns text.
Proof.
  intros Hclass Hfirst Hlast. unfold detectColorFromImage. cbn zeta.
  rewrite (trim_fixed text Hfirst Hlast). now rewrite stripClass_fixed.
Qed.

Lemma clean_answer_unchanged_witness :
  detectColorFromImage (Responds (Some (lit "Dark blue")))
  = Returns (lit "Dark blue").
Proof.
  apply clean_answer_unchanged.
  - intros c Hc. apply list_elem_of_In in Hc. vm_compute in Hc.
    repeat (destruct Hc as [<-|Hc]; [reflexivity|]). destruct Hc.
  - reflexivity.
  - reflexivity.
Defined.

(** X3: sanitizing only removes characters. The label is the response
    text with some characters deleted, in the same order, so it is never
    longer than the response. *)
Theorem label_is_sublist_of_response (text : jsstring) :
  exists label,
    detectColorFromImage (Responds (Some text)) = Returns label
    /\ label `sublist_of` text
    /\ (length label <= length text)%nat.
Proof.
  exists (stripClass (trim text)). split; [reflexivity|].
  assert (Hsub : stripClass (trim text) `sublist_of` text).
  { unfold stripClass. etransitivity; [apply sublist_filter|].
    unfold trim.
    destruct (trimEnd_prefix (trimStart text)) as [k Hk].
    destruct (trimStart_suffix text) as [k' Hk'].
    rewrite Hk' at 2. rewrite Hk at 2.
    apply sublist_inserts_l, sublist_inserts_r. reflexivity. }
  split; [exact Hsub|]. now apply sublist_length.
Qed.

(** ** What the effects leave alone *)

Section Untouched.

Context {runtime : Runtime}.

Lemma untouched_refl s : untouched s s.
Proof. now split. Qed.

Lemma untouched_trans s1 s2 s3 :
  untouched s1 s2 -> untouched s2 s3 -> untouched s1 s3.
Proof.
  intros [A1 A2 A3 A4 A5 A6 A7] [B1 B2 B3 B4 B5 B6 B7].
  split; congruence.
Qed.

Lemma stopCameraStream_untouched s : untouched s (stopCameraStream s).
Proof.
  split; rewrite ?stopCameraStream_browser, ?stopCameraStream_hooks;
    reflexivity.
Qed.

Lemma paint_untouched s : untouched s (paint s).
Proof. split; rewrite ?paint_browser, ?paint_hooks; reflexivity. Qed.

Lemma audioEffect_untouched render s : untouched s (audioEffect render s).
Proof. unfold audioEffect. destruct (_ && _); now split. Qed.

Lemma colorEffect_untouched render s : untouched s (colorEffect render s).
Proof.
  unfold colorEffect, speak.
  destruct (truthy (detectedColor render)); now split.
Qed.

Lemma startCamera_untouched fm c s : untouched s (startCamera fm c s).
Proof.
  split; rewrite ?startCamera_browser, ?startCamera_hooks,
    ?stopCameraStream_browser; destruct (mediaDevices (browser s)) eqn:Hmd;
    cbn; rewrite ?Hmd; reflexivity.
Qed.

Lemma cameraEffect_untouched render s : untouched s (cameraEffect render s).
Proof.
  unfold cameraEffect. destruct (isCameraOn render).
  - apply startCamera_untouched.
  - apply (untouched_trans _ (stopCameraStream s));
      [apply stopCameraStream_untouched|now split].
Qed.

Lemma if_untouched (b : bool) (f : State -> State) s :
  (forall t, untouched t (f t)) -> untouched s (if b then f s else s).
Proof. intros Hf. destruct b; [apply Hf|apply untouched_refl]. Qed.

Lemma runEffects_untouched s : untouched s (runEffects s).
Proof.
  unfold runEffects. cbn zeta.
  set (cameraDue := due _ dep_isCameraOn _ || due _ dep_facingMode _).
  set (colorDue := due _ dep_detectedColor _).
  set (audioDue := due _ dep_audioUrl _).
  set (s1 := if cameraDue && _ then stopCameraStream s else s).
  set (s2 := if audioDue then audioEffect (hooks s) s1 else s1).
  set (s3 := if colorDue then colorEffect (hooks s) s2 else s2).
  set (s4 := if cameraDue then cameraEffect (hooks s) s3 else s3).
  assert (H1 : untouched s s1)
    by (apply if_untouched, stopCameraStream_untouched).
  assert (H2 : untouched s1 s2)
    by (apply if_untouched, audioEffect_untouched).
  assert (H3 : untouched s2 s3)
    by (apply if_untouched, colorEffect_untouched).
  assert (H4 : untouched s3 s4)
    by (apply if_untouched, cameraEffect_untouched).
  apply (untouched_trans _ s4); [|now split].
  eauto using untouched_trans.
Qed.

Lemma flush_untouched n s : untouched s (flush n s).
Proof.
  revert s. induction n as [|n IH]; intros s; rewrite flush_eq;
    case_bool_decide; try apply paint_untouched.
  eapply untouched_trans; [apply paint_untouched|].
  eapply untouched_trans; [apply runEffects_untouched|apply IH].
Qed.

Lemma run_cons e es s : run (e :: es) s = run es (step e s).
Proof. reflexivity. Qed.

Lemma run_app es1 es2 s : run (es1 ++ es2) s = run es2 (run es1 s).
Proof. unfold run. apply fold_left_app. Qed.

Lemma run_mounted es s : mounted s -> mounted (run es s).
Proof.
  revert s. induction es as [|e es IH]; intros s Hm; [exact Hm|].
  rewrite run_cons. apply IH. now apply step_mounted.
Qed.

Lemma mount_mounted p : mounted (step Mount (init p)).
Proof.
  split.
  - apply commit_settled.
  - unfold step. cbn [lastDeps init]. unfold commit.
    now rewrite flush_elements.
Qed.

Lemma every_task_settles_aux p es : mounted (run (Mount :: es) (init p)).
Proof. rewrite run_cons. apply run_mounted, mount_mounted. Qed.

(** X4: once the component is mounted, every task ends with no effect left
    to run and with the three elements on their refs: whatever the events,
    the effects settle within the two rounds of a commit. *)
Theorem every_task_settles (p : Platform) (es : list Event) :
  let s := run (Mount :: es) (init p) in
  settled s /\ elements s = (true, Some CanvasElement, Some AudioElement).
Proof.
  cbn zeta. rewrite run_cons.
  destruct (run_mounted es _ (mount_mounted p)) as [Hs He]. now split.
Qed.

End Untouched.

(** ** Late continuations and ignored events *)

Section Continuations.

Context {runtime : Runtime}.

(** A state with a pending promise is that of a mounted component. *)
Lemma pending_mounted p es :
  pendingStreams (browser (run es (init p))) <> []
  \/ pendingPlays (browser (run es (init p))) <> [] ->
  mounted (run es (init p)).
Proof.
  intros Hne.
  destruct (reachable_mounted (run es (init p))) as [[q Hq]|Hm];
    [apply reachable_run; constructor| |exact Hm].
  rewrite Hq in Hne. cbn in Hne. destruct Hne as [H|H]; now destruct H.
Qed.

Lemma lookup_not_nil {A} (l : list A) i x : l !! i = Some x -> l <> [].
Proof. intros Hi ->. discriminate Hi. Qed.

Lemma videoRef_mounted s :
  elements s = (true, Some CanvasElement, Some AudioElement) ->
  exists video, videoRef (refs s) = Some video.
Proof.
  unfold elements. intros He. injection He as Hv _ _.
  apply bool_decide_eq_true_1 in Hv. destruct Hv as [video Hv]. eauto.
Qed.

(** X5: when playback of a granted stream starts, [startCamera] goes on
    whether or not the camera is still switched on: the status becomes
    Detecting and a timer is registered with the callback of the render
    that started the camera, and its handle is stored. *)
Theorem playback_starts_interval (p : Platform) (es : list Event)
    (i : nat) (r : StartCamera) :
  let s := run es (init p) in
  pendingPlays (browser s) !! i = Some r ->
  let s' := step (PlayStarted i) s in
  let id := nextTimer (browser s) in
  status (hooks s') = Detecting
  /\ isCameraOn (hooks s') = isCameraOn (hooks s)
  /\ detectionIntervalRef (refs s') = Some id
  /\ timers (browser s') = <[ id := req_captureAndDetect r ]> (timers (browser s))
  /\ calls (browser s') = calls (browser s) ++ [SetInterval id]
  /\ pendingPlays (browser s') = delete i (pendingPlays (browser s)).
Proof.
  intros s Hi.
  destruct (pending_mounted p es) as [Hs _];
    [right; exact (lookup_not_nil _ _ _ Hi)|].
  fold s in Hs. clearbody s. cbn zeta.
  rewrite (step_settled _ s Hs). cbn [handle]. rewrite Hi.
  rewrite commit_idle by exact Hs.
  rewrite paint_hooks, paint_refs, paint_timers, paint_calls, paint_browser.
  repeat split.
Qed.

(** X6: when [getUserMedia] resolves, [startCamera] attaches the stream to
    the video element and plays it whether or not the camera is still
    switched on; it stops no track, so a stream it replaces on the element
    stays live. *)
Theorem granted_stream_is_attached (p : Platform) (es : list Event)
    (i : nat) (r : StartCamera) (stream : MediaStream) :
  let s := run es (init p) in
  pendingStreams (browser s) !! i = Some r ->
  let s' := step (StreamGranted i stream) s in
  videoRef (refs s') = Some {| srcObject := Some stream |}
  /\ hooks s' = hooks s
  /\ endedTracks (browser s') = endedTracks (browser s)
  /\ timers (browser s') = timers (browser s)
  /\ calls (browser s') = calls (browser s) ++ [VideoPlay]
  /\ pendingPlays (browser s') = pendingPlays (browser s) ++ [r].
Proof.
  intros s Hi.
  destruct (pending_mounted p es) as [Hs He];
    [left; exact (lookup_not_nil _ _ _ Hi)|].
  fold s in Hs, He. clearbody s. cbn zeta.
  destruct (videoRef_mounted s He) as [video Hv].
  rewrite (step_settled _ s Hs). cbn [handle]. rewrite Hi.
  unfold startCamera_granted.
  change (videoRef (refs (setPendingStreams ?l s))) with (videoRef (refs s)).
  rewrite Hv. cbn zeta.
  rewrite commit_idle by exact Hs.
  rewrite paint_hooks, paint_refs, paint_timers, paint_calls,
    paint_endedTracks, paint_browser.
  cbn. rewrite Hv. repeat split.
Qed.

(** X7: a tick of a timer whose callback was created while [isLoading] was
    set does nothing, whatever the loading flag is by now: no state cell
    changes, no image is sent. *)
Theorem tick_with_loading_closure_is_skipped (p : Platform) (es : list Event)
    (id : positive) (c : CaptureAndDetect) (image : jsstring) :
  let s := run es (init p) in
  timers (browser s) !! id = Some c ->
  cap_isLoading c = true ->
  let s' := step (TimerFired id image) s in
  hooks s' = hooks s
  /\ refs s' = refs s
  /\ calls (browser s') = calls (browser s)
  /\ pendingDetections (browser s') = pendingDetections (browser s).
Proof.
  intros s Ht Hc.
  destruct (not_initial_mounted p es) as [Hs _].
  { right. intros Hempty. fold s in Hempty. rewrite Hempty in Ht.
    rewrite lookup_empty in Ht. discriminate Ht. }
  fold s in Hs. clearbody s. cbn zeta.
  rewrite (step_settled _ s Hs). cbn [handle]. rewrite Ht.
  unfold captureAndDetect. rewrite Hc. cbn [orb].
  rewrite commit_idle by exact Hs.
  rewrite paint_hooks, paint_refs, paint_calls, paint_browser.
  repeat split.
Qed.

(** X8: a click on the switch button while the camera is off changes
    nothing: the facing mode and every other state cell stay, and no call
    is made. *)
Theorem switch_ignored_while_off (p : Platform) (es : list Event) :
  let s := run es (init p) in
  isCameraOn (hooks s) = false ->
  let s' := step ClickSwitch s in
  hooks s' = hooks s
  /\ refs s' = refs s
  /\ calls (browser s') = calls (browser s)
  /\ pendingStreams (browser s') = pendingStreams (browser s).
Proof.
  intros s Hoff.
  destruct (reachable_mounted s) as [[q Hq]|[Hs _]];
    [apply reachable_run; constructor| |].
  - cbn zeta. rewrite Hq. repeat split.
  - clearbody s. cbn zeta.
    rewrite (step_settled _ s Hs). cbn [handle].
    unfold handleSwitchCamera. rewrite Hoff.
    rewrite commit_idle by exact Hs.
    rewrite paint_hooks, paint_refs, paint_calls, paint_browser.
    repeat split.
Qed.

End Continuations.

(** ** Switching the camera on, and requests that fail *)

Section Requests.

Context {runtime : Runtime}.

#[local] Arguments stopCameraStream : simpl never.
#[local] Arguments startCamera : simpl never.
#[local] Arguments paint : simpl never.
#[local] Arguments releaseCalls : simpl never.

Lemma hooks_setStatus v s :
  hooks (setStatus v s)
  = Build_Hooks (isCameraOn (hooks s)) (facingMode (hooks s)) v
      (detectedColor (hooks s)) (isLoading (hooks s)) (error (hooks s))
      (audioUrl (hooks s)) (colorUpdateKey (hooks s)).
Proof. reflexivity. Qed.

Lemma startCamera_stopped fm c s :
  startCamera fm c (stopCameraStream s) = startCamera fm c s.
Proof. unfold startCamera. now rewrite stopCameraStream_twice. Qed.

(** A render shows the status of its state last. *)
Lemma paint_displayed s :
  exists l, displayed (browser (paint s)) = l ++ [status (hooks s)].
Proof.
  rewrite paint_browser. cbn. case_bool_decide as Hlast.
  - apply last_Some in Hlast. exact Hlast.
  - eauto.
Qed.

Lemma paint_displayed_change s l st :
  displayed (browser s) = l ++ [st] -> status (hooks s) <> st ->
  displayed (browser (paint s)) = l ++ [st; status (hooks s)].
Proof.
  intros Hd Hne. rewrite paint_browser. cbn. rewrite Hd, last_snoc.
  rewrite bool_decide_eq_false_2 by congruence.
  now rewrite <- app_assoc.
Qed.

(** The commit after a handler switched the camera off and left the
    status at [st]: the camera effect releases the camera and sets
    Stopped, after one render that showed [st]. *)
Lemma commit_switches_off s d :
  lastDeps s = Some d ->
  dep_audioUrl d = audioUrl (hooks s) ->
  dep_detectedColor d = detectedColor (hooks s) \/ detectedColor (hooks s) = [] ->
  dep_isCameraOn d = true ->
  isCameraOn (hooks s) = false ->
  status (hooks s) <> Stopped ->
  let s' := commit s in
  status (hooks s') = Stopped
  /\ error (hooks s') = error (hooks s)
  /\ isCameraOn (hooks s') = false
  /\ released s s'
  /\ calls (browser s') = calls (browser s) ++ releaseCalls s
  /\ exists l, displayed (browser s') = l ++ [status (hooks s); Stopped].
Proof.
  intros Hd Ha Hc Hon Hoff Hst. cbn zeta. unfold commit.
  rewrite (flush_camera_off 1 s d Hd Ha Hc);
    [|left; rewrite Hon, Hoff; discriminate|exact Hoff].
  rewrite stopCameraStream_twice.
  set (t := stopCameraStream (paint s)).
  assert (Hh : hooks t = hooks s)
    by (unfold t; now rewrite stopCameraStream_hooks, paint_hooks).
  assert (Hrel : releaseCalls (paint s) = releaseCalls s)
    by (apply releaseCalls_refs; now rewrite paint_refs).
  assert (Hb : browser t
    = let b := browser (paint s) in
      Build_Browser (mediaDevices b) (context2d b)
        (match videoRef (refs s) with
         | Some {| srcObject := Some stream |} =>
             list_to_set stream ∪ endedTracks b
         | _ => endedTracks b
         end)
        (match detectionIntervalRef (refs s) with
         | Some id => delete id (timers b)
         | None => timers b
         end)
        (nextTimer b) (pendingStreams b) (pendingPlays b)
        (pendingDetections b) (calls b ++ releaseCalls s) (displayed b)).
  { unfold t. now rewrite stopCameraStream_browser, paint_refs, Hrel. }
  rewrite paint_hooks, hooks_setLastDeps, hooks_setStatus, Hh.
  split; [reflexivity|]. split; [reflexivity|]. split; [exact Hoff|].
  split; [apply released_after_stop|split].
  - rewrite paint_endedTracks, browser_setLastDeps, browser_setStatus, Hb.
    cbn. rewrite paint_endedTracks.
    destruct (videoRef (refs s)) as [[[stream|]]|]; eauto.
  - rewrite paint_timers, browser_setLastDeps, browser_setStatus, Hb.
    cbn. rewrite paint_timers.
    destruct (detectionIntervalRef (refs s)); auto.
  - rewrite paint_calls, browser_setLastDeps, browser_setStatus, Hb.
    cbn. now rewrite paint_calls.
  - destruct (paint_displayed s) as [l Hl]. exists l.
    apply (paint_displayed_change
             (setLastDeps (Some (depsOf (hooks s))) (setStatus Stopped t)) l
             (status (hooks s))).
    + rewrite browser_setLastDeps, browser_setStatus, Hb. exact Hl.
    + exact (not_eq_sym Hst).
Qed.

(** X9: when the camera request of a session that is still switched on is
    rejected, the component ends the task with the camera switched off
    and the status Stopped, not Error: [startCamera] sets Error and the
    message, one render shows it, and the camera effect, which runs again
    because [isCameraOn] changed, sets Stopped and releases the camera.
    The message stays. When the camera had been switched off meanwhile,
    the status stays Error. *)
Theorem denied_request_ends_stopped (p : Platform) (es : list Event)
    (i : nat) (r : StartCamera) :
  let s := run es (init p) in
  let denied :=
    lit "Camera access denied. Please allow camera permissions in your browser settings." in
  pendingStreams (browser s) !! i = Some r ->
  let s' := step (StreamDenied i) s in
  error (hooks s') = Some denied
  /\ isCameraOn (hooks s') = false
  /\ (isCameraOn (hooks s) = true ->
      status (hooks s') = Stopped
      /\ released s s'
      /\ calls (browser s') = calls (browser s) ++ releaseCalls s
      /\ exists l, displayed (browser s') = l ++ [Error; Stopped])
  /\ (isCameraOn (hooks s) = false -> status (hooks s') = Error).
Proof.
  intros s denied Hi.
  destruct (pending_mounted p es) as [Hs _];
    [left; exact (lookup_not_nil _ _ _ Hi)|].
  fold s in Hs. clearbody s. cbn zeta.
  rewrite (step_settled _ s Hs). cbn [handle]. rewrite Hi.
  set (s0 := startCamera_rejected
               (setPendingStreams (delete i (pendingStreams (browser s))) s)).
  destruct (isCameraOn (hooks s)) eqn:Hon.
  - destruct (commit_switches_off s0 (depsOf (hooks s)))
      as (H1 & H2 & H3 & H4 & H5 & H6);
      [exact Hs|reflexivity|now left|exact Hon|reflexivity|discriminate|].
    split; [exact H2|]. split; [exact H3|]. split; [|discriminate].
    intros _. split; [exact H1|]. split; [exact H4|]. split; [exact H5|].
    exact H6.
  - assert (Hs0 : settled s0).
    { apply (settled_frame s); [exact Hs|reflexivity|].
      unfold depsOf. cbn. now rewrite Hon. }
    rewrite (commit_idle s0 Hs0), paint_hooks.
    split; [reflexivity|]. split; [reflexivity|]. split; [discriminate|].
    reflexivity.
Qed.

(** X10: switching the camera on where the browser has [getUserMedia]:
    the camera is released first, then a stream is asked for with the
    current facing mode; the status is Initializing, the error and the
    detected colour are cleared. The request carries the callback of this
    render, which closes over the loading flag of the moment and over the
    empty label. *)
Theorem switching_on_requests_camera (p : Platform) (es : list Event) :
  let s := run (Mount :: es) (init p) in
  isCameraOn (hooks s) = false ->
  mediaDevices (browser s) = true ->
  let s' := step ClickToggle s in
  isCameraOn (hooks s') = true
  /\ status (hooks s') = Initializing
  /\ error (hooks s') = None
  /\ detectedColor (hooks s') = []
  /\ calls (browser s')
     = calls (browser s) ++ releaseCalls s
       ++ [GetUserMedia (facingMode (hooks s))]
  /\ pendingStreams (browser s')
     = pendingStreams (browser s)
       ++ [{| req_facingMode := facingMode (hooks s);
              req_captureAndDetect :=
                {| cap_isLoading := isLoading (hooks s);
                   cap_detectedColor := [] |} |}].
Proof.
  intros s Hoff Hmd. destruct (every_task_settles_aux p es) as [Hs _].
  fold s in Hs. clearbody s. cbn zeta.
  rewrite (step_settled _ s Hs). cbn [handle].
  unfold handleToggleCamera. rewrite Hoff. cbn [negb].
  set (s0 := setDetectedColor [] (setIsCameraOn true s)).
  assert (Hrel : releaseCalls (paint s0) = releaseCalls s)
    by (apply releaseCalls_refs; now rewrite paint_refs).
  unfold commit.
  rewrite (flush_camera_on 1 s0 (depsOf (hooks s)));
    [|exact Hs|reflexivity|now right|left; cbn; rewrite Hoff; discriminate
     |reflexivity|exact Hmd].
  rewrite startCamera_stopped.
  assert (Hmd0 : mediaDevices (browser (paint s0)) = true)
    by (now rewrite paint_mediaDevices).
  assert (Hh : hooks (startCamera (facingMode (hooks s0))
                        (captureAndDetectOf (hooks s0)) (paint s0))
               = Build_Hooks true (facingMode (hooks s)) Initializing []
                   (isLoading (hooks s)) None (audioUrl (hooks s))
                   (colorUpdateKey (hooks s))).
  { rewrite startCamera_hooks, Hmd0, paint_hooks. reflexivity. }
  assert (Hb : browser (startCamera (facingMode (hooks s0))
                          (captureAndDetectOf (hooks s0)) (paint s0))
               = let b := browser (stopCameraStream (paint s0)) in
                 Build_Browser (mediaDevices b) (context2d b) (endedTracks b)
                   (timers b) (nextTimer b)
                   (pendingStreams b
                      ++ [{| req_facingMode := facingMode (hooks s0);
                             req_captureAndDetect := captureAndDetectOf (hooks s0) |}])
                   (pendingPlays b) (pendingDetections b)
                   (calls b ++ [GetUserMedia (facingMode (hooks s0))])
                   (displayed b)).
  { rewrite startCamera_browser, Hmd0. reflexivity. }
  rewrite paint_hooks, hooks_setLastDeps, Hh.
  do 4 (split; [reflexivity|]).
  rewrite paint_calls, paint_browser, browser_setLastDeps, Hb.
  cbn [calls pendingStreams browser].
  rewrite stopCameraStream_browser, Hrel, paint_browser.
  cbn [calls pendingStreams]. rewrite <- app_assoc. split; reflexivity.
Qed.

(** X11: switching the camera on where the browser has no [getUserMedia]
    ends, within the same task, with the camera off again and the status
    Stopped; the message "Camera not supported by this browser." stays,
    no stream is asked for, and the badge has shown Error in between. *)
Theorem switching_on_unsupported (p : Platform) (es : list Event) :
  let s := run (Mount :: es) (init p) in
  isCameraOn (hooks s) = false ->
  mediaDevices (browser s) = false ->
  let s' := step ClickToggle s in
  isCameraOn (hooks s') = false
  /\ status (hooks s') = Stopped
  /\ error (hooks s') = Some (lit "Camera not supported by this browser.")
  /\ calls (browser s') = calls (browser s) ++ releaseCalls s
  /\ pendingStreams (browser s') = pendingStreams (browser s)
  /\ exists l, displayed (browser s') = l ++ [Error; Stopped].
Proof.
  intros s Hoff Hmd. destruct (every_task_settles_aux p es) as [Hs _].
  fold s in Hs. clearbody s. cbn zeta.
  rewrite (step_settled _ s Hs). cbn [handle].
  unfold handleToggleCamera. rewrite Hoff. cbn [negb].
  set (s0 := setDetectedColor [] (setIsCameraOn true s)).
  destruct (flush_unsupported_state s0 (depsOf (hooks s)))
    as (d0 & d1 & Heq);
    [exact Hs|reflexivity|now right|left; cbn; rewrite Hoff; discriminate
    |reflexivity|exact Hmd|].
  unfold commit. rewrite Heq. clear Heq.
  set (t := stopCameraStream (paint s0)).
  set (u := setIsCameraOn false (setStatus Error (setError _ (setError None
              (setStatus Initializing t))))).
  assert (Hrel : releaseCalls (paint s0) = releaseCalls s)
    by (apply releaseCalls_refs; now rewrite paint_refs).
  assert (Hbu : browser u = browser t) by reflexivity.
  assert (Hb : calls (browser t) = calls (browser s) ++ releaseCalls s
               /\ pendingStreams (browser t) = pendingStreams (browser s)).
  { unfold t. rewrite stopCameraStream_browser, Hrel, paint_browser.
    split; reflexivity. }
  destruct Hb as [Hcalls Hpend].
  rewrite paint_hooks, hooks_setLastDeps, hooks_setStatus, paint_hooks,
    hooks_setLastDeps.
  split; [reflexivity|]. split; [reflexivity|]. split; [reflexivity|].
  rewrite paint_calls, !paint_browser, !browser_setLastDeps, browser_setStatus,
    !paint_browser, !browser_setLastDeps, Hbu.
  cbn [calls pendingStreams displayed browser].
  split; [exact Hcalls|]. split; [exact Hpend|].
  destruct (paint_displayed (setLastDeps d0 u)) as [l Hl].
  exists l.
  pose proof (paint_displayed_change
                (setLastDeps d1 (setStatus Stopped (paint (setLastDeps d0 u))))
                l Error) as Hchange.
  rewrite paint_browser in Hchange. cbn in Hchange.
  rewrite !paint_browser in Hchange. cbn in Hchange.
  apply Hchange; [|discriminate].
  rewrite paint_browser in Hl. exact Hl.
Qed.

End Requests.

(** ** Announcements *)

Section Announcements.

Context {runtime : Runtime}.

#[local] Arguments paint : simpl never.

(** The round of effects after a change of [detectedColor] alone. *)
Lemma runEffects_color s d :
  lastDeps s = Some d ->
  dep_audioUrl d = audioUrl (hooks s) ->
  dep_detectedColor d <> detectedColor (hooks s) ->
  dep_isCameraOn d = isCameraOn (hooks s) ->
  dep_facingMode d = facingMode (hooks s) ->
  runEffects s
  = setLastDeps (Some (depsOf (hooks s))) (colorEffect (hooks s) s).
Proof.
  intros Hd Ha Hc Hon Hfm. unfold runEffects. cbn zeta. rewrite Hd.
  unfold due. cbn [depsOf dep_audioUrl dep_detectedColor dep_isCameraOn
    dep_facingMode].
  rewrite (bool_decide_eq_true_2 _ Ha), (bool_decide_eq_true_2 _ Hon),
    (bool_decide_eq_true_2 _ Hfm), (bool_decide_eq_false_2 _ Hc).
  reflexivity.
Qed.

(** The round of effects after a change of [audioUrl] alone. *)
Lemma runEffects_audio s d :
  lastDeps s = Some d ->
  dep_audioUrl d <> audioUrl (hooks s) ->
  dep_detectedColor d = detectedColor (hooks s) ->
  dep_isCameraOn d = isCameraOn (hooks s) ->
  dep_facingMode d = facingMode (hooks s) ->
  runEffects s
  = setLastDeps (Some (depsOf (hooks s))) (audioEffect (hooks s) s).
Proof.
  intros Hd Ha Hc Hon Hfm. unfold runEffects. cbn zeta. rewrite Hd.
  unfold due. cbn [depsOf dep_audioUrl dep_detectedColor dep_isCameraOn
    dep_facingMode].
  rewrite (bool_decide_eq_true_2 _ Hc), (bool_decide_eq_true_2 _ Hon),
    (bool_decide_eq_true_2 _ Hfm), (bool_decide_eq_false_2 _ Ha).
  reflexivity.
Qed.

Lemma speechUrl_truthy text : truthy (speechUrl text) = true.
Proof. reflexivity. Qed.

Lemma colorEffect_speaks render s :
  detectedColor render <> [] ->
  colorEffect render s
  = setColorUpdateKey (fun prevKey => prevKey + 1)
      (setAudioUrl (speechUrl (detectedColor render)) s).
Proof.
  intros Hne. unfold colorEffect, speak.
  destruct (detectedColor render); [contradiction|reflexivity].
Qed.

(** The commit after a handler put a new, non-empty label in
    [detectedColor]: the colour effect sets the speech address and bumps
    the key; the audio effect then plays the address if it is a new
    one. *)
Lemma commit_announces s d :
  lastDeps s = Some d ->
  dep_audioUrl d = audioUrl (hooks s) ->
  dep_detectedColor d <> detectedColor (hooks s) ->
  dep_isCameraOn d = isCameraOn (hooks s) ->
  dep_facingMode d = facingMode (hooks s) ->
  detectedColor (hooks s) <> [] ->
  audioRef (refs s) = Some AudioElement ->
  let url := speechUrl (detectedColor (hooks s)) in
  let s' := commit s in
  audioUrl (hooks s') = url
  /\ colorUpdateKey (hooks s') = colorUpdateKey (hooks s) + 1
  /\ status (hooks s') = status (hooks s)
  /\ error (hooks s') = error (hooks s)
  /\ calls (browser s')
     = calls (browser s)
       ++ (if bool_decide (audioUrl (hooks s) = url) then [] else [AudioPlay url]).
Proof.
  intros Hd Ha Hc Hon Hfm Hne Haudio. cbn zeta. unfold commit.
  set (url := speechUrl (detectedColor (hooks s))).
  rewrite flush_eq, bool_decide_eq_false_2.
  2:{ rewrite paint_settled. unfold settled. rewrite Hd. intros Heq.
      inversion Heq as [Hdeps]. apply Hc. now rewrite Hdeps. }
  rewrite (runEffects_color (paint s) d);
    rewrite ?paint_hooks, ?paint_lastDeps; auto.
  rewrite (colorEffect_speaks (hooks s) (paint s) Hne). fold url.
  remember (setLastDeps (Some (depsOf (hooks s)))
              (setColorUpdateKey (fun prevKey => prevKey + 1)
                 (setAudioUrl url (paint s)))) as s1 eqn:Es1.
  assert (Hh1 : hooks s1
    = Build_Hooks (isCameraOn (hooks s)) (facingMode (hooks s))
        (status (hooks s)) (detectedColor (hooks s)) (isLoading (hooks s))
        (error (hooks s)) url (colorUpdateKey (hooks s) + 1)).
  { rewrite Es1. cbn [hooks setLastDeps setColorUpdateKey setAudioUrl withHooks
      isCameraOn facingMode status detectedColor isLoading error audioUrl
      colorUpdateKey]. now rewrite paint_hooks. }
  assert (Hb1 : browser s1 = browser (paint s)) by (now rewrite Es1).
  assert (Hr1 : refs s1 = refs s) by (rewrite Es1; cbn; apply paint_refs).
  assert (Hl1 : lastDeps s1 = Some (depsOf (hooks s))) by (now rewrite Es1).
  clear Es1.
  rewrite flush_eq.
  destruct (decide (audioUrl (hooks s) = url)) as [Hsame|Hsame];
    [rewrite (bool_decide_eq_true_2 (audioUrl (hooks s) = url) Hsame)
    |rewrite (bool_decide_eq_false_2 (audioUrl (hooks s) = url) Hsame)].
  - (* the address has not changed: nothing is played *)
    assert (Hsettled : settled (paint s1)).
    { apply paint_settled. unfold settled. rewrite Hh1, Hl1.
      unfold depsOf. cbn. now rewrite Hsame. }
    rewrite (bool_decide_eq_true_2 _ Hsettled).
    rewrite paint_hooks, Hh1, paint_calls, Hb1, paint_calls, app_nil_r.
    repeat split.
  - (* a new address: the audio effect plays it *)
    assert (Hunsettled : ~ settled (paint s1)).
    { intros Hset. apply (proj1 (paint_settled s1)) in Hset.
      unfold settled in Hset.
      rewrite Hh1, Hl1 in Hset. unfold depsOf in Hset. cbn in Hset.
      inversion Hset as [Hurl]. now apply Hsame. }
    rewrite (bool_decide_eq_false_2 _ Hunsettled).
    rewrite (runEffects_audio (paint s1) (depsOf (hooks s)));
      rewrite ?paint_hooks, ?paint_lastDeps, ?Hh1; try reflexivity;
      try exact Hl1.
    2:{ cbn. exact Hsame. }
    unfold audioEffect. cbn [audioUrl].
    assert (Hturl : truthy url = true) by apply speechUrl_truthy.
    rewrite Hturl.
    rewrite paint_refs, Hr1, Haudio. cbn [andb].
    rewrite bool_decide_eq_true_2 by eauto.
    rewrite flush_eq.
    match goal with
    | |- context [bool_decide (settled (paint ?t))] =>
        assert (Hsettled : settled (paint t))
          by (apply paint_settled; unfold settled; cbn;
              now rewrite ?paint_hooks, ?Hh1);
        rewrite (bool_decide_eq_true_2 _ Hsettled)
    end.
    rewrite paint_hooks, paint_calls.
    cbn [hooks browser setLastDeps logCall withBrowser calls].
    rewrite ?paint_hooks, ?Hh1, paint_calls, Hb1, paint_calls.
    repeat split.
Qed.

(** X12: a classification result with a non-empty label that differs, up
    to case, from the label its cycle compares against is put on display.
    If it is not the very label already on display, the audio address
    becomes the speech address of the label, the animation key goes up by
    one, and the audio element plays the address, unless the address is
    the one it already has: then nothing is played. If the label is
    exactly the one on display, nothing is announced. *)
Theorem new_label_is_announced (p : Platform) (es : list Event)
    (i : nat) (d : Detection) (r : GenerateContent) (color : jsstring) :
  let s := run es (init p) in
  pendingDetections (browser s) !! i = Some d ->
  detectColorFromImage r = Returns color ->
  color <> [] ->
  toLowerCase color <> toLowerCase (det_detectedColor d) ->
  let s' := step (ServiceSettled i r) s in
  let url := speechUrl color in
  detectedColor (hooks s') = color
  /\ (color <> detectedColor (hooks s) ->
      audioUrl (hooks s') = url
      /\ colorUpdateKey (hooks s') = colorUpdateKey (hooks s) + 1
      /\ calls (browser s')
         = calls (browser s)
           ++ (if bool_decide (audioUrl (hooks s) = url)
               then [] else [AudioPlay url]))
  /\ (color = detectedColor (hooks s) ->
      audioUrl (hooks s') = audioUrl (hooks s)
      /\ colorUpdateKey (hooks s') = colorUpdateKey (hooks s)
      /\ calls (browser s') = calls (browser s)).
Proof.
  intros s Hi Hr Hne Hdiff.
  destruct (pending_detection_mounted p es i d Hi) as [Hs He].
  fold s in Hs, He. clearbody s. cbn zeta.
  rewrite (step_settled _ s Hs). cbn [handle]. rewrite Hi, Hr.
  unfold captureAndDetect_resolved, strictNe, strictEq.
  rewrite (bool_decide_eq_false_2 _ Hdiff).
  assert (Ht : truthy color = true) by (destruct color; [contradiction|reflexivity]).
  rewrite Ht. cbn [andb negb].
  set (s1 := setIsLoading false (setError None (setDetectedColor color
               (setPendingDetections (delete i (pendingDetections (browser s))) s)))).
  split; [unfold commit; now rewrite flush_detectedColor|]. split.
  - intros Hnew.
    assert (Haudio : audioRef (refs s1) = Some AudioElement).
    { unfold elements in He. now injection He as _ _ Ha. }
    destruct (commit_announces s1 (depsOf (hooks s)))
      as (H1 & H2 & _ & _ & H5);
      [exact Hs|reflexivity|exact (not_eq_sym Hnew)|reflexivity|reflexivity
      |exact Hne|exact Haudio|].
    split; [exact H1|]. split; [exact H2|exact H5].
  - intros Hsame.
    assert (Hs1 : settled s1).
    { apply (settled_frame s); [exact Hs|reflexivity|].
      unfold depsOf. cbn. now rewrite Hsame. }
    rewrite (commit_idle s1 Hs1), paint_hooks, paint_calls. repeat split.
Qed.

End Announcements.

(** ** Invariants of a session *)

Section Invariants.

Context {runtime : Runtime}.

Ltac handler_cases :=
  repeat match goal with
         | |- context [if ?b then _ else _] => destruct b eqn:?
         | |- context [match ?x with Some _ => _ | None => _ end] =>
             destruct x eqn:?
         | |- context [match ?x with Returns _ => _ | Throws _ => _ end] =>
             destruct x eqn:?
         end.

(** An invariant of the mounted component that the initial state has is
    an invariant of every reachable state. *)
Lemma reachable_invariant (P : State -> Prop) :
  (forall p, P (init p)) ->
  (forall s, P s -> P (commit (attachRefs s))) ->
  (forall e s, settled s -> P s -> P (commit (handle e s))) ->
  forall s, reachable s -> P s.
Proof.
  intros Hinit Hmount Hstep s Hreach.
  induction Hreach as [p|e s Hreach IH]; [apply Hinit|].
  destruct (reachable_mounted s Hreach) as [[q Hq]|[Hs _]].
  - subst s. unfold step. cbn [lastDeps init].
    destruct e; auto.
  - rewrite (step_settled e s Hs). destruct e; auto.
Qed.

(** The same for the states reached from one initial state. *)
Lemma run_invariant (P : State -> Prop) (p : Platform) :
  P (init p) ->
  (forall s, P s -> P (commit (attachRefs s))) ->
  (forall e s, settled s -> P s -> P (commit (handle e s))) ->
  forall es, P (run es (init p)).
Proof.
  intros Hinit Hmount Hstep es.
  induction es as [|e es IH] using rev_ind; [exact Hinit|].
  rewrite run_app. cbn [run fold_left]. fold (run es (init p)).
  destruct (reachable_mounted (run es (init p))) as [[q Hq]|[Hs _]];
    [apply reachable_run; constructor| |].
  - rewrite Hq in *. unfold step. cbn [lastDeps init]. destruct e; auto.
  - rewrite (step_settled e _ Hs). destruct e; auto.
Qed.

(** *** The loading flag *)

Lemma handle_loading e s :
  (isLoading (hooks s) = true -> pendingDetections (browser s) <> []) ->
  isLoading (hooks (handle e s)) = true ->
  pendingDetections (browser (handle e s)) <> [].
Proof.
  intros Hinv.
  destruct e; cbn [handle];
    unfold handleToggleCamera, handleSwitchCamera, startCamera_granted,
      startCamera_rejected, startCamera_played, captureAndDetect,
      captureAndDetect_resolved, captureAndDetect_rejected;
    cbn zeta; handler_cases; cbn; try exact Hinv; try discriminate.
  intros _ Hnil. now apply app_eq_nil in Hnil as [_ Hnil].
Qed.

Lemma commit_loading s :
  (isLoading (hooks s) = true -> pendingDetections (browser s) <> []) ->
  isLoading (hooks (commit s)) = true ->
  pendingDetections (browser (commit s)) <> [].
Proof.
  intros Hinv. destruct (flush_untouched 2 s) as [_ _ Hp _ Hl _ _].
  unfold commit. now rewrite Hp, Hl.
Qed.

(** X13: in every state the component reaches, the loading flag is set
    only while a classification call is pending. In particular the
    "Analyzing..." spinner is on screen only while a call is pending. *)
Theorem spinner_only_while_pending (p : Platform) (es : list Event) :
  let s := run es (init p) in
  (isLoading (hooks s) = true -> pendingDetections (browser s) <> [])
  /\ (panel (view (hooks s)) = Some Analyzing ->
      pendingDetections (browser s) <> []).
Proof.
  cbn zeta.
  assert (Hinv : isLoading (hooks (run es (init p))) = true ->
                 pendingDetections (browser (run es (init p))) <> []).
  { apply (reachable_invariant
             (fun s => isLoading (hooks s) = true ->
                       pendingDetections (browser s) <> [])).
    - intros q. cbn. discriminate.
    - intros s Hs. now apply commit_loading.
    - intros e s _ Hs. now apply commit_loading, handle_loading.
    - apply reachable_run. constructor. }
  split; [exact Hinv|].
  unfold view. cbn [panel].
  destruct (isCameraOn (hooks (run es (init p)))); [|discriminate].
  destruct (isLoading (hooks (run es (init p)))); [|discriminate].
  intros _. now apply Hinv.
Qed.

(** *** The error message *)

Lemma runEffects_error s :
  knownError (error (hooks s)) -> knownError (error (hooks (runEffects s))).
Proof.
  intros Hk. unfold runEffects. cbn zeta. cbn [hooks setLastDeps].
  set (cameraDue := due _ dep_isCameraOn _ || due _ dep_facingMode _).
  set (colorDue := due _ dep_detectedColor _).
  set (audioDue := due _ dep_audioUrl _).
  destruct cameraDue, colorDue, audioDue, (bool_decide (is_Some (lastDeps s)));
    cbn [andb];
    rewrite ?cameraEffect_hooks, ?startCamera_hooks, ?colorEffect_hooks,
      ?audioEffect_hooks, ?stopCameraStream_hooks;
    repeat match goal with
           | |- context [if ?b then _ else _] => destruct b eqn:?
           end; cbn [error]; try exact Hk; try exact I;
    unfold knownError, fixedMessages; right; left.
Qed.

Lemma flush_error n s :
  knownError (error (hooks s)) -> knownError (error (hooks (flush n s))).
Proof.
  revert s. induction n as [|n IH]; intros s Hk; rewrite flush_eq;
    case_bool_decide; rewrite ?paint_hooks; try exact Hk.
  apply IH, runEffects_error. now rewrite paint_hooks.
Qed.

Lemma handle_error e s :
  knownError (error (hooks s)) -> knownError (error (hooks (handle e s))).
Proof.
  intros Hk.
  destruct e; cbn [handle];
    unfold handleToggleCamera, handleSwitchCamera, startCamera_granted,
      startCamera_rejected, startCamera_played, captureAndDetect,
      captureAndDetect_resolved, captureAndDetect_rejected;
    cbn zeta; handler_cases; cbn [hooks error setIsCameraOn setStatus
      setError setIsLoading setDetectedColor setFacingMode setPendingStreams
      setPendingPlays setPendingDetections setDetectionIntervalRef
      setSrcObject setInterval logCall withHooks withRefs withBrowser
      fst snd];
    try exact Hk; try exact I;
    unfold knownError, fixedMessages;
    first [ left; reflexivity | right; right; left; reflexivity ].
Qed.

(** X14: in every state the component reaches, [error] is [null] or one of
    the three fixed messages, so the paragraph under the video shows
    nothing else. *)
Theorem only_fixed_messages_shown (p : Platform) (es : list Event) :
  let s := run es (init p) in
  knownError (error (hooks s))
  /\ forall message,
       errorShown (view (hooks s)) = Some message -> message ∈ fixedMessages.
Proof.
  cbn zeta.
  assert (Hinv : knownError (error (hooks (run es (init p))))).
  { apply (reachable_invariant (fun s => knownError (error (hooks s)))).
    - intros q. exact I.
    - intros s Hs. unfold commit. now apply flush_error.
    - intros e s _ Hs. unfold commit. now apply flush_error, handle_error.
    - apply reachable_run. constructor. }
  split; [exact Hinv|].
  unfold view. cbn [errorShown].
  destruct (error (hooks (run es (init p)))) as [m|]; [|discriminate].
  destruct (truthy m); [|discriminate].
  intros message Hm. injection Hm as <-. exact Hinv.
Qed.

(** *** The camera toggle *)

Lemma isCameraOn_setStatus v s :
  isCameraOn (hooks (setStatus v s)) = isCameraOn (hooks s).
Proof. reflexivity. Qed.

Lemma isCameraOn_setIsCameraOn v s : isCameraOn (hooks (setIsCameraOn v s)) = v.
Proof. reflexivity. Qed.

Lemma handle_platform e s :
  mediaDevices (browser (handle e s)) = mediaDevices (browser s).
Proof.
  destruct e; cbn [handle];
    unfold handleToggleCamera, handleSwitchCamera, startCamera_granted,
      startCamera_rejected, startCamera_played, captureAndDetect,
      captureAndDetect_resolved, captureAndDetect_rejected;
    cbn zeta; handler_cases; reflexivity.
Qed.

Lemma handle_keeps_off e s :
  e <> ClickToggle ->
  isCameraOn (hooks s) = false -> isCameraOn (hooks (handle e s)) = false.
Proof.
  intros He Hoff.
  destruct e; try contradiction; cbn [handle];
    unfold handleSwitchCamera, startCamera_granted,
      startCamera_rejected, startCamera_played, captureAndDetect,
      captureAndDetect_resolved, captureAndDetect_rejected;
    cbn zeta; handler_cases; cbn; try exact Hoff; try reflexivity;
    congruence.
Qed.

Lemma flush_keeps_off n s :
  isCameraOn (hooks s) = false -> isCameraOn (hooks (flush n s)) = false.
Proof.
  revert s. induction n as [|n IH]; intros s Hoff; rewrite flush_eq;
    case_bool_decide; rewrite ?paint_hooks; try exact Hoff.
  apply IH. destruct (runEffects_hooks (paint s)) as (_ & _ & [Hon|Hon] & _);
    cbn zeta in Hon; rewrite Hon; [now rewrite paint_hooks|reflexivity].
Qed.

(** Switching on without [getUserMedia] ends switched off. *)
Lemma toggle_unsupported_off s :
  settled s ->
  isCameraOn (hooks s) = false ->
  mediaDevices (browser s) = false ->
  isCameraOn (hooks (commit (handleToggleCamera s))) = false.
Proof.
  intros Hs Hoff Hmd. unfold handleToggleCamera. rewrite Hoff. cbn [negb].
  set (s0 := setDetectedColor [] (setIsCameraOn true s)).
  destruct (flush_unsupported_state s0 (depsOf (hooks s)))
    as (d0 & d1 & Heq);
    [exact Hs|reflexivity|now right|left; cbn; rewrite Hoff; discriminate
    |reflexivity|exact Hmd|].
  unfold commit. rewrite Heq. clear Heq.
  set (t := stopCameraStream (paint s0)).
  set (u := setStatus Error (setError _ (setError None (setStatus Initializing t)))).
  clearbody u.
  rewrite paint_hooks, hooks_setLastDeps, isCameraOn_setStatus,
    paint_hooks, hooks_setLastDeps.
  apply isCameraOn_setIsCameraOn.
Qed.

(** X15: what the platform offers never changes, and in a browser without
    [getUserMedia] no task ends with the camera switched on: the toggle
    always falls back to off. *)
Theorem camera_on_needs_getUserMedia (p : Platform) (es : list Event) :
  let s := run es (init p) in
  mediaDevices (browser s) = supportsGetUserMedia p
  /\ (isCameraOn (hooks s) = true -> supportsGetUserMedia p = true).
Proof.
  cbn zeta.
  assert (Hinv : mediaDevices (browser (run es (init p))) = supportsGetUserMedia p
                 /\ (mediaDevices (browser (run es (init p))) = false ->
                     isCameraOn (hooks (run es (init p))) = false)).
  { apply (run_invariant
             (fun s => mediaDevices (browser s) = supportsGetUserMedia p
                       /\ (mediaDevices (browser s) = false ->
                           isCameraOn (hooks s) = false))).
    - split; reflexivity.
    - intros s [Hp Hs].
      destruct (flush_untouched 2 (attachRefs s)) as [Hm _ _ _ _ _ _].
      unfold commit. rewrite Hm. split; [exact Hp|].
      intros Hmd. apply flush_keeps_off. now apply Hs.
    - intros e s Hset [Hp Hs].
      destruct (flush_untouched 2 (handle e s)) as [Hm _ _ _ _ _ _].
      unfold commit. rewrite Hm, handle_platform. split; [exact Hp|].
      intros Hmd.
      destruct e;
        try (apply flush_keeps_off, handle_keeps_off;
             [discriminate|now apply Hs]).
      apply (toggle_unsupported_off s Hset (Hs Hmd) Hmd). }
  destruct Hinv as [Hplat Hoff]. split; [exact Hplat|].
  intros Hon. rewrite <- Hplat.
  destruct (mediaDevices (browser (run es (init p)))); [reflexivity|].
  rewrite Hoff in Hon by reflexivity. discriminate Hon.
Qed.

End Invariants.

(** ** Ticks and results *)

Section Ticks.

Context {runtime : Runtime}.

#[local] Arguments paint : simpl never.

(** X16: in every state the component reaches, a tick of a live timer
    whose callback was created while [isLoading] was false runs a cycle,
    whatever the loading flag is by now: the status becomes Detecting
    and, with a 2d context, the frame is sent and the call waits with the
    label of the callback's render; the loading flag is set. Without a 2d
    context nothing is sent and the flag is cleared again. *)
Theorem tick_runs_cycle (p : Platform) (es : list Event)
    (id : positive) (c : CaptureAndDetect) (image : jsstring) :
  let s := run es (init p) in
  timers (browser s) !! id = Some c ->
  cap_isLoading c = false ->
  let s' := step (TimerFired id image) s in
  status (hooks s') = Detecting
  /\ isLoading (hooks s') = context2d (browser s)
  /\ calls (browser s')
     = calls (browser s)
       ++ (if context2d (browser s) then [GenerateContentCall image] else [])
  /\ pendingDetections (browser s')
     = pendingDetections (browser s)
       ++ (if context2d (browser s)
           then [{| det_image := image;
                    det_detectedColor := cap_detectedColor c |}]
           else []).
Proof.
  intros s Ht Hc.
  destruct (not_initial_mounted p es) as [Hs He].
  { right. intros Hempty. fold s in Hempty. rewrite Hempty in Ht.
    rewrite lookup_empty in Ht. discriminate Ht. }
  fold s in Hs, He. clearbody s. cbn zeta.
  rewrite (step_settled _ s Hs). cbn [handle]. rewrite Ht.
  rewrite (captureAndDetect_runs c image s Hc He).
  destruct (context2d (browser s)).
  - rewrite commit_idle by exact Hs.
    rewrite paint_hooks, paint_calls, paint_browser. repeat split.
  - rewrite commit_idle by exact Hs.
    rewrite paint_hooks, paint_calls, paint_browser, !app_nil_r.
    repeat split.
Qed.

(** X17: a classification result never changes the status. A label,
    replaced or not, clears the error message and the loading flag and
    leaves the status where it is, so a status Error set by another call
    that failed meanwhile stays on the badge with no message. *)
Theorem result_keeps_status (p : Platform) (es : list Event)
    (i : nat) (d : Detection) (r : GenerateContent) (color : jsstring) :
  let s := run es (init p) in
  pendingDetections (browser s) !! i = Some d ->
  detectColorFromImage r = Returns color ->
  let s' := step (ServiceSettled i r) s in
  status (hooks s') = status (hooks s)
  /\ error (hooks s') = None
  /\ isLoading (hooks s') = false
  /\ pendingDetections (browser s') = delete i (pendingDetections (browser s)).
Proof.
  intros s Hi Hr.
  destruct (pending_detection_mounted p es i d Hi) as [Hs He].
  fold s in Hs, He. clearbody s. cbn zeta.
  rewrite (step_settled _ s Hs). cbn [handle]. rewrite Hi, Hr.
  set (s0 := setPendingDetections (delete i (pendingDetections (browser s))) s).
  destruct (flush_untouched 2 (captureAndDetect_resolved d color s0))
    as [_ _ Hp _ Hl _ _].
  unfold commit at 3 4. rewrite Hp, Hl.
  assert (Haudio : audioRef (refs s) = Some AudioElement).
  { unfold elements in He. now injection He as _ _ Ha. }
  unfold captureAndDetect_resolved.
  destruct (truthy color && strictNe (toLowerCase color)
                              (toLowerCase (det_detectedColor d))) eqn:Hcond.
  - set (s1 := setIsLoading false (setError None (setDetectedColor color s0))).
    destruct (decide (color = detectedColor (hooks s))) as [Hsame|Hnew].
    + assert (Hs1 : settled s1).
      { apply (settled_frame s); [exact Hs|reflexivity|].
        unfold depsOf. cbn. now rewrite Hsame. }
      rewrite (commit_idle s1 Hs1), paint_hooks. repeat split.
    + assert (Hne : color <> []).
      { intros ->. discriminate Hcond. }
      destruct (commit_announces s1 (depsOf (hooks s)))
        as (_ & _ & H3 & H4 & _);
        [exact Hs|reflexivity|exact (not_eq_sym Hnew)|reflexivity|reflexivity
        |exact Hne|exact Haudio|].
      split; [exact H3|]. split; [exact H4|]. repeat split.
  - set (s1 := setIsLoading false (setError None s0)).
    rewrite (commit_idle s1) by exact Hs.
    rewrite paint_hooks. repeat split.
Qed.

End Ticks.

(** ** The timer handle *)

Section Handle.

Context {runtime : Runtime}.

Ltac handler_cases :=
  repeat match goal with
         | |- context [if ?b then _ else _] => destruct b eqn:?
         | |- context [match ?x with Some _ => _ | None => _ end] =>
             destruct x eqn:?
         | |- context [match ?x with Returns _ => _ | Throws _ => _ end] =>
             destruct x eqn:?
         end.

Lemma heldTimerLive_none s :
  detectionIntervalRef (refs s) = None -> heldTimerLive s.
Proof. intros Hn id Hid. rewrite Hn in Hid. discriminate Hid. Qed.

Lemma heldTimerLive_same s s' :
  detectionIntervalRef (refs s') = detectionIntervalRef (refs s) ->
  timers (browser s') = timers (browser s) ->
  heldTimerLive s -> heldTimerLive s'.
Proof. unfold heldTimerLive. now intros -> ->. Qed.

Lemma stopCameraStream_held s : heldTimerLive (stopCameraStream s).
Proof. apply heldTimerLive_none. now rewrite stopCameraStream_refs. Qed.

Lemma startCamera_held fm c s : heldTimerLive (startCamera fm c s).
Proof.
  apply heldTimerLive_none.
  now rewrite startCamera_refs, stopCameraStream_refs.
Qed.

Lemma cameraEffect_held render s : heldTimerLive (cameraEffect render s).
Proof.
  unfold cameraEffect. destruct (isCameraOn render).
  - apply startCamera_held.
  - apply (heldTimerLive_same (stopCameraStream s));
      [reflexivity|reflexivity|apply stopCameraStream_held].
Qed.

Lemma audioEffect_held render s :
  heldTimerLive s -> heldTimerLive (audioEffect render s).
Proof. unfold audioEffect. now destruct (_ && _). Qed.

Lemma colorEffect_held render s :
  heldTimerLive s -> heldTimerLive (colorEffect render s).
Proof.
  unfold colorEffect, speak. now destruct (truthy (detectedColor render)).
Qed.

Lemma paint_held s : heldTimerLive s -> heldTimerLive (paint s).
Proof.
  apply heldTimerLive_same; [now rewrite paint_refs|apply paint_timers].
Qed.

Lemma runEffects_held s : heldTimerLive s -> heldTimerLive (runEffects s).
Proof.
  intros Hh. unfold runEffects. cbn zeta.
  set (cameraDue := due _ dep_isCameraOn _ || due _ dep_facingMode _).
  set (colorDue := due _ dep_detectedColor _).
  set (audioDue := due _ dep_audioUrl _).
  set (s1 := if cameraDue && _ then stopCameraStream s else s).
  set (s2 := if audioDue then audioEffect (hooks s) s1 else s1).
  set (s3 := if colorDue then colorEffect (hooks s) s2 else s2).
  set (s4 := if cameraDue then cameraEffect (hooks s) s3 else s3).
  assert (H1 : heldTimerLive s1).
  { unfold s1. destruct (cameraDue && _); [apply stopCameraStream_held|exact Hh]. }
  assert (H2 : heldTimerLive s2).
  { unfold s2. destruct audioDue; [now apply audioEffect_held|exact H1]. }
  assert (H3 : heldTimerLive s3).
  { unfold s3. destruct colorDue; [now apply colorEffect_held|exact H2]. }
  assert (H4 : heldTimerLive s4).
  { unfold s4. destruct cameraDue; [apply cameraEffect_held|exact H3]. }
  exact H4.
Qed.

Lemma flush_held n s : heldTimerLive s -> heldTimerLive (flush n s).
Proof.
  revert s. induction n as [|n IH]; intros s Hh; rewrite flush_eq;
    case_bool_decide; try (now apply paint_held).
  now apply IH, runEffects_held, paint_held.
Qed.

Lemma handle_held e s : heldTimerLive s -> heldTimerLive (handle e s).
Proof.
  intros Hh.
  destruct e; cbn [handle];
    unfold handleToggleCamera, handleSwitchCamera, startCamera_granted,
      startCamera_rejected, startCamera_played, captureAndDetect,
      captureAndDetect_resolved, captureAndDetect_rejected;
    cbn zeta; handler_cases; try exact Hh.
  (* playback started: the new handle is that of the timer just made *)
  intros id Hid. cbn in Hid. injection Hid as <-. cbn.
  rewrite lookup_insert_eq. eauto.
Qed.

(** X18: in every state the component reaches, the handle held in
    [detectionIntervalRef] is that of a live timer, so the
    [clearInterval] of [stopCameraStream] always cancels one; and right
    after [stopCameraStream] that timer is gone. *)
Theorem held_handle_is_live (p : Platform) (es : list Event) (id : positive) :
  let s := run es (init p) in
  detectionIntervalRef (refs s) = Some id ->
  is_Some (timers (browser s) !! id)
  /\ timers (browser (stopCameraStream s)) !! id = None
  /\ detectionIntervalRef (refs (stopCameraStream s)) = None.
Proof.
  cbn zeta. intros Hid.
  assert (Hinv : heldTimerLive (run es (init p))).
  { apply (run_invariant heldTimerLive).
    - now apply heldTimerLive_none.
    - intros s Hs. unfold commit. apply flush_held.
      revert Hs. now apply heldTimerLive_same.
    - intros e s _ Hs. unfold commit. now apply flush_held, handle_held. }
  split; [now apply Hinv|].
  rewrite stopCameraStream_browser, stopCameraStream_refs. cbn.
  rewrite Hid. split; [apply lookup_delete_eq|reflexivity].
Qed.

End Handle.

(** ** Witnesses of the further properties *)

Lemma playback_starts_interval_witness :
  let s := @run asciiRuntime lateGrant (init desktop) in
  let s' := @step asciiRuntime (PlayStarted 0) s in
  pendingPlays (browser s) !! 0%nat = Some firstRequest
  /\ status (hooks s') = Detecting
  /\ isCameraOn (hooks s') = isCameraOn (hooks s)
  /\ isCameraOn (hooks s) = false
  /\ detectionIntervalRef (refs s') = Some (nextTimer (browser s)).
Proof.
  cbv zeta.
  assert (Hi : pendingPlays (browser (@run asciiRuntime lateGrant (init desktop)))
                 !! 0%nat = Some firstRequest) by (vm_compute; reflexivity).
  assert (Hoff : isCameraOn (hooks (@run asciiRuntime lateGrant (init desktop)))
                 = false) by (vm_compute; reflexivity).
  pose proof (@playback_starts_interval asciiRuntime desktop lateGrant 0%nat
                firstRequest Hi) as H.
  cbv zeta in H. destruct H as (H1 & H2 & H3 & _).
  exact (conj Hi (conj H1 (conj H2 (conj Hoff H3)))).
Defined.

Lemma granted_stream_is_attached_witness :
  let s := @run asciiRuntime offWhilePending (init desktop) in
  let s' := @step asciiRuntime (StreamGranted 0 [0%nat; 1%nat]) s in
  pendingStreams (browser s) !! 0%nat = Some firstRequest
  /\ isCameraOn (hooks s) = false
  /\ videoRef (refs s') = Some {| srcObject := Some [0%nat; 1%nat] |}
  /\ calls (browser s') = calls (browser s) ++ [VideoPlay].
Proof.
  cbv zeta.
  assert (Hi : pendingStreams
                 (browser (@run asciiRuntime offWhilePending (init desktop)))
                 !! 0%nat = Some firstRequest) by (vm_compute; reflexivity).
  assert (Hoff : isCameraOn
                   (hooks (@run asciiRuntime offWhilePending (init desktop)))
                 = false) by (vm_compute; reflexivity).
  pose proof (@granted_stream_is_attached asciiRuntime desktop offWhilePending
                0%nat firstRequest [0%nat; 1%nat] Hi) as H.
  cbv zeta in H. destruct H as (H1 & _ & _ & _ & H5 & _).
  exact (conj Hi (conj Hoff (conj H1 H5))).
Defined.

Lemma tick_with_loading_closure_is_skipped_witness :
  let s := @run asciiRuntime switchInFlightSettled (init desktop) in
  let s' := @step asciiRuntime (TimerFired 2 (lit "frame-2")) s in
  timers (browser s) !! 2%positive
  = Some {| cap_isLoading := true; cap_detectedColor := [] |}
  /\ isLoading (hooks s) = false
  /\ pendingDetections (browser s) = []
  /\ hooks s' = hooks s
  /\ calls (browser s') = calls (browser s).
Proof.
  cbv zeta.
  assert (Ht : timers
                 (browser (@run asciiRuntime switchInFlightSettled (init desktop)))
                 !! 2%positive
               = Some {| cap_isLoading := true; cap_detectedColor := [] |})
    by (vm_compute; reflexivity).
  assert (Hl : isLoading
                 (hooks (@run asciiRuntime switchInFlightSettled (init desktop)))
               = false) by (vm_compute; reflexivity).
  assert (Hp : pendingDetections
                 (browser (@run asciiRuntime switchInFlightSettled (init desktop)))
               = []) by (vm_compute; reflexivity).
  pose proof (@tick_with_loading_closure_is_skipped asciiRuntime desktop
                switchInFlightSettled 2%positive _ (lit "frame-2") Ht eq_refl)
    as H.
  cbv zeta in H. destruct H as (H1 & _ & H3 & _).
  exact (conj Ht (conj Hl (conj Hp (conj H1 H3)))).
Defined.

Lemma switch_ignored_while_off_witness :
  let s := @run asciiRuntime [Mount] (init desktop) in
  isCameraOn (hooks s) = false
  /\ hooks (@step asciiRuntime ClickSwitch s) = hooks s.
Proof.
  cbv zeta.
  assert (Hoff : isCameraOn (hooks (@run asciiRuntime [Mount] (init desktop)))
                 = false) by (vm_compute; reflexivity).
  pose proof (@switch_ignored_while_off asciiRuntime desktop [Mount] Hoff) as H.
  cbv zeta in H. destruct H as (H1 & _).
  exact (conj Hoff H1).
Defined.

Lemma denied_request_ends_stopped_witness :
  let s := @run asciiRuntime [Mount; ClickToggle] (init desktop) in
  let s' := @step asciiRuntime (StreamDenied 0) s in
  pendingStreams (browser s) !! 0%nat = Some firstRequest
  /\ isCameraOn (hooks s) = true
  /\ status (hooks s') = Stopped
  /\ isCameraOn (hooks s') = false.
Proof.
  cbv zeta.
  assert (Hi : pendingStreams
                 (browser (@run asciiRuntime [Mount; ClickToggle] (init desktop)))
                 !! 0%nat = Some firstRequest) by (vm_compute; reflexivity).
  assert (Hon : isCameraOn
                  (hooks (@run asciiRuntime [Mount; ClickToggle] (init desktop)))
                = true) by (vm_compute; reflexivity).
  pose proof (@denied_request_ends_stopped asciiRuntime desktop
                [Mount; ClickToggle] 0%nat firstRequest Hi) as H.
  cbv zeta in H. destruct H as (_ & H2 & H3 & _).
  exact (conj Hi (conj Hon (conj (proj1 (H3 Hon)) H2))).
Defined.

Lemma switching_on_requests_camera_witness :
  let s := @run asciiRuntime [Mount] (init desktop) in
  let s' := @step asciiRuntime ClickToggle s in
  isCameraOn (hooks s) = false
  /\ mediaDevices (browser s) = true
  /\ status (hooks s') = Initializing
  /\ calls (browser s')
     = calls (browser s) ++ releaseCalls s
       ++ [GetUserMedia (facingMode (hooks s))].
Proof.
  cbv zeta.
  assert (Hoff : isCameraOn (hooks (@run asciiRuntime [Mount] (init desktop)))
                 = false) by (vm_compute; reflexivity).
  assert (Hmd : mediaDevices (browser (@run asciiRuntime [Mount] (init desktop)))
                = true) by (vm_compute; reflexivity).
  pose proof (@switching_on_requests_camera asciiRuntime desktop [] Hoff Hmd)
    as H.
  cbv zeta in H. destruct H as (_ & H2 & _ & _ & H5 & _).
  exact (conj Hoff (conj Hmd (conj H2 H5))).
Defined.

Lemma switching_on_unsupported_witness :
  let s := @run asciiRuntime [Mount] (init kiosk) in
  let s' := @step asciiRuntime ClickToggle s in
  isCameraOn (hooks s) = false
  /\ mediaDevices (browser s) = false
  /\ isCameraOn (hooks s') = false
  /\ status (hooks s') = Stopped
  /\ error (hooks s') = Some (lit "Camera not supported by this browser.").
Proof.
  cbv zeta.
  assert (Hoff : isCameraOn (hooks (@run asciiRuntime [Mount] (init kiosk)))
                 = false) by (vm_compute; reflexivity).
  assert (Hmd : mediaDevices (browser (@run asciiRuntime [Mount] (init kiosk)))
                = false) by (vm_compute; reflexivity).
  pose proof (@switching_on_unsupported asciiRuntime kiosk [] Hoff Hmd) as H.
  cbv zeta in H. destruct H as (H1 & H2 & H3 & _).
  exact (conj Hoff (conj Hmd (conj H1 (conj H2 H3)))).
Defined.

Lemma new_label_is_announced_witness :
  let s := @run asciiRuntime firstTick (init desktop) in
  let r := Responds (Some (lit "Blue.")) in
  let s' := @step asciiRuntime (ServiceSettled 0 r) s in
  pendingDetections (browser s) !! 0%nat = Some firstDetection
  /\ detectColorFromImage r = Returns (lit "Blue")
  /\ detectedColor (hooks s') = lit "Blue"
  /\ audioUrl (hooks s') = @speechUrl asciiRuntime (lit "Blue")
  /\ colorUpdateKey (hooks s') = colorUpdateKey (hooks s) + 1.
Proof.
  cbv zeta.
  assert (Hi : pendingDetections
                 (browser (@run asciiRuntime firstTick (init desktop))) !! 0%nat
               = Some firstDetection) by (vm_compute; reflexivity).
  assert (Hr : detectColorFromImage (Responds (Some (lit "Blue.")))
               = Returns (lit "Blue")) by (vm_compute; reflexivity).
  assert (Hne : lit "Blue" <> []) by (vm_compute; discriminate).
  assert (Hlow : @toLowerCase asciiRuntime (lit "Blue")
                 <> @toLowerCase asciiRuntime (det_detectedColor firstDetection))
    by (vm_compute; discriminate).
  assert (Hnew : lit "Blue"
                 <> detectedColor
                      (hooks (@run asciiRuntime firstTick (init desktop))))
    by (vm_compute; discriminate).
  pose proof (@new_label_is_announced asciiRuntime desktop firstTick 0%nat
                firstDetection _ (lit "Blue") Hi Hr Hne Hlow) as H.
  cbv zeta in H. destruct H as (H1 & H2 & _).
  destruct (H2 Hnew) as (H3 & H4 & _).
  exact (conj Hi (conj Hr (conj H1 (conj H3 H4)))).
Defined.

Lemma tick_runs_cycle_witness :
  let s := @run asciiRuntime firstTick (init desktop) in
  let s' := @step asciiRuntime (TimerFired 1 (lit "frame-2")) s in
  timers (browser s) !! 1%positive = Some firstCallback
  /\ isLoading (hooks s) = true
  /\ status (hooks s') = Detecting
  /\ calls (browser s')
     = calls (browser s)
       ++ (if context2d (browser s)
           then [GenerateContentCall (lit "frame-2")] else []).
Proof.
  cbv zeta.
  assert (Ht : timers (browser (@run asciiRuntime firstTick (init desktop)))
                 !! 1%positive = Some firstCallback)
    by (vm_compute; reflexivity).
  assert (Hl : isLoading (hooks (@run asciiRuntime firstTick (init desktop)))
               = true) by (vm_compute; reflexivity).
  pose proof (@tick_runs_cycle asciiRuntime desktop firstTick 1%positive
                firstCallback (lit "frame-2") Ht eq_refl) as H.
  cbv zeta in H. destruct H as (H1 & _ & H3 & _).
  exact (conj Ht (conj Hl (conj H1 H3))).
Defined.

Lemma result_keeps_status_witness :
  let s := @run asciiRuntime firstTick (init desktop) in
  let r := Responds (Some (lit "Blue")) in
  let s' := @step asciiRuntime (ServiceSettled 0 r) s in
  pendingDetections (browser s) !! 0%nat = Some firstDetection
  /\ detectColorFromImage r = Returns (lit "Blue")
  /\ status (hooks s') = status (hooks s)
  /\ error (hooks s') = None
  /\ isLoading (hooks s') = false.
Proof.
  cbv zeta.
  assert (Hi : pendingDetections
                 (browser (@run asciiRuntime firstTick (init desktop))) !! 0%nat
               = Some firstDetection) by (vm_compute; reflexivity).
  assert (Hr : detectColorFromImage (Responds (Some (lit "Blue")))
               = Returns (lit "Blue")) by (vm_compute; reflexivity).
  pose proof (@result_keeps_status asciiRuntime desktop firstTick 0%nat
                firstDetection _ (lit "Blue") Hi Hr) as H.
  cbv zeta in H. destruct H as (H1 & H2 & H3 & _).
  exact (conj Hi (conj Hr (conj H1 (conj H2 H3)))).
Defined.

Lemma held_handle_is_live_witness :
  let s := @run asciiRuntime activation (init desktop) in
  detectionIntervalRef (refs s) = Some 1%positive
  /\ is_Some (timers (browser s) !! 1%positive)
  /\ timers (browser (stopCameraStream s)) !! 1%positive = None.
Proof.
  cbv zeta.
  assert (Hid : detectionIntervalRef
                  (refs (@run asciiRuntime activation (init desktop)))
                = Some 1%positive) by (vm_compute; reflexivity).
  pose proof (@held_handle_is_live asciiRuntime desktop activation 1%positive Hid)
    as H.
  cbv zeta in H. destruct H as (H1 & H2 & _).
  exact (conj Hid (conj H1 H2)).
Defined.

Lemma load_needs_nonempty_key_witness :
  let env : gmap string jsstring := {[ "API_KEY"%string := lit "key" ]} in
  load env = Returns {| apiKey := lit "key" |}
  /\ load (∅ : gmap string jsstring)
     = Throws (lit "API_KEY environment variable not set").
Proof.
  cbv zeta. split.
  - apply (proj1 (load_needs_nonempty_key {[ "API_KEY"%string := lit "key" ]})).
    split; [vm_compute; reflexivity|vm_compute; discriminate].
  - apply (proj2 (load_needs_nonempty_key ∅)). left. reflexivity.
Defined.

Lemma spinner_only_while_pending_witness :
  let s := @run asciiRuntime firstTick (init desktop) in
  isLoading (hooks s) = true /\ pendingDetections (browser s) <> [].
Proof.
  cbv zeta.
  assert (Hl : isLoading (hooks (@run asciiRuntime firstTick (init desktop)))
               = true) by (vm_compute; reflexivity).
  exact (conj Hl
           (proj1 (@spinner_only_while_pending asciiRuntime desktop firstTick) Hl)).
Defined.

Lemma camera_on_needs_getUserMedia_witness :
  let s := @run asciiRuntime activation (init desktop) in
  isCameraOn (hooks s) = true /\ supportsGetUserMedia desktop = true.
Proof.
  cbv zeta.
  assert (Hon : isCameraOn (hooks (@run asciiRuntime activation (init desktop)))
                = true) by (vm_compute; reflexivity).
  exact (conj Hon
           (proj2 (@camera_on_needs_getUserMedia asciiRuntime desktop activation)
              Hon)).
Defined.

(** ** The claims at their failing inputs *)

(** C4, at a failing input: the facing mode is switched while the first
    call is in flight, so the only live timer is the one of the new
    interval, whose callback closed over [isLoading = true]. The call
    then throws: the status goes to Error with the fixed message, the
    loading flag is cleared and the timer stays live. Yet when that timer
    fires, the next cycle is not attempted: the callback returns at its
    guard, no image is sent and the state is as it was. *)
Theorem failed_call_then_cycle_not_attempted :
  let s := @run asciiRuntime switchInFlight (init desktop) in
  let s' := @step asciiRuntime (ServiceSettled 0 Fails) s in
  let s'' := @step asciiRuntime (TimerFired 2 (lit "frame-2")) s' in
  pendingDetections (browser s) = [firstDetection]
  /\ detectColorFromImage Fails
     = Throws (lit "Failed to get response from AI model.")
  /\ status (hooks s') = Error
  /\ error (hooks s') = Some (lit "Could not detect color. Please try again.")
  /\ isLoading (hooks s') = false
  /\ isCameraOn (hooks s') = true
  /\ map_to_list (timers (browser s')) = [(2%positive, loadingCallback)]
  /\ detectionIntervalRef (refs s') = Some 2%positive
  /\ calls (browser s'') = calls (browser s')
  /\ pendingDetections (browser s'') = []
  /\ s'' = s'.
Proof. vm_compute. repeat split. Qed.

(** C5, at a failing input: "Blue" is on display when the timer of the
    activation fires again; its callback still compares against the empty
    label of the render in which the interval was started. The service
    answers "BLUE", which equals "Blue" up to case, and "BLUE" replaces
    "Blue" on display and is announced. *)
Theorem case_variant_replaces_displayed_label :
  let s := @run asciiRuntime blueOnDisplay (init desktop) in
  let r := Responds (Some (lit "BLUE")) in
  let s' := @step asciiRuntime (ServiceSettled 0 r) s in
  detectedColor (hooks s) = lit "Blue"
  /\ pendingDetections (browser s)
     = [{| det_image := lit "frame-2"; det_detectedColor := [] |}]
  /\ detectColorFromImage r = Returns (lit "BLUE")
  /\ @toLowerCase asciiRuntime (lit "BLUE")
     = @toLowerCase asciiRuntime (lit "Blue")
  /\ detectedColor (hooks s') = lit "BLUE"
  /\ detectedColor (hooks s') <> detectedColor (hooks s)
  /\ calls (browser s')
     = calls (browser s) ++ [AudioPlay (@speechUrl asciiRuntime (lit "BLUE"))].
Proof. vm_compute. repeat split. discriminate. Qed.

(** C6, at a failing input: the facing mode is switched while the first
    camera request is pending, and both requests are granted. The second
    stream replaces the first on the video element and the second timer
    replaces the first in [detectionIntervalRef]; nothing stops the first
    stream or cancels the first timer. When the facing mode is switched
    again, a new stream is requested while tracks 0 and 1 of the first
    stream have not ended and timer 1 is still live; the same is left
    after switching the camera off instead, and timer 1 goes on sending
    images with the camera off. *)
Theorem overlapping_activations_are_not_released :
  let s := @run asciiRuntime overlappingActivations (init desktop) in
  let switched := @step asciiRuntime ClickSwitch s in
  let off := @step asciiRuntime ClickToggle s in
  let image := lit "frame-1" in
  isCameraOn (hooks s) = true
  /\ calls (browser s)
     = [GetUserMedia environment; GetUserMedia user;
        VideoPlay; SetInterval 1; VideoPlay; SetInterval 2]
  /\ calls (browser switched)
     = calls (browser s)
       ++ [TrackStop 2; TrackStop 3; ClearInterval 2; GetUserMedia environment]
  /\ bool_decide (0%nat ∈ endedTracks (browser switched)) = false
  /\ bool_decide (1%nat ∈ endedTracks (browser switched)) = false
  /\ map_to_list (timers (browser switched)) = [(1%positive, firstCallback)]
  /\ calls (browser (@step asciiRuntime (TimerFired 1 image) switched))
     = calls (browser switched) ++ [GenerateContentCall image]
  /\ isCameraOn (hooks off) = false
  /\ calls (browser off)
     = calls (browser s) ++ [TrackStop 2; TrackStop 3; ClearInterval 2]
  /\ bool_decide (0%nat ∈ endedTracks (browser off)) = false
  /\ bool_decide (1%nat ∈ endedTracks (browser off)) = false
  /\ map_to_list (timers (browser off)) = [(1%positive, firstCallback)]
  /\ calls (browser (@step asciiRuntime (TimerFired 1 image) off))
     = calls (browser off) ++ [GenerateContentCall image].
Proof. vm_compute. repeat split. Qed.
